(** * Payment orchestration service: a shallow embedding of
      [src/stripe/stripe.service.ts] and [src/stripe/stripe.controller.ts].

    The service is a chain of awaited calls to the Stripe SDK wrapped in
    [try]/[catch] blocks.  It is embedded in a state-and-exception monad:
    the state holds the platform (whatever sits behind the SDK), the clock,
    the list of SDK calls issued so far and the lines written to the Nest
    logger.  The SDK itself is a parameter: an arbitrary function answering
    each typed call, possibly changing the platform.

    JavaScript numbers: the integer quantities the code only adds and
    compares (cents, milliseconds, counts) are modelled as [Z], which is
    what the doubles hold as long as they stay below 2^53; the fractional
    ones (euros, rates, prices) are binary64 floats with the IEEE
    operations of the code, in the order the code applies them.  The
    numbers of a request body, which the pages only test and pass on, are
    kept as the rationals their JSON text denotes. *)

From Stdlib Require Import String Ascii ZArith QArith Qround List Bool Lia.
From Stdlib Require PrimFloat SpecFloat FloatOps.
From stdpp Require Import base gmap sets list strings pretty.
Import PrimFloat.PrimFloatNotations.
Number Notation PrimFloat.float PrimFloat.parser PrimFloat.printer : float_scope.

Local Open Scope string_scope.
Local Open Scope list_scope.
Local Open Scope Z_scope.

(** ** Values exchanged with the platform *)

(** A Stripe list page: [{ data: [...], has_more }]. *)
Record ApiList (A : Type) : Type := mkApiList {
  data : list A;
  has_more : bool
}.
Arguments mkApiList {A} _ _.
Arguments data {A} _.
Arguments has_more {A} _.

Module PaymentMethod.
Record t : Type := mk { id : string }.
End PaymentMethod.

Module Customer.
Record t : Type := mk { id : string }.
End Customer.

Module Subscription.
Record t : Type := mk { id : string; trial_end : option Z }.
End Subscription.

Module PaymentIntent.
Record t : Type := mk {
  id : string;
  status : string;
  payment_method_types : list string;
  amount_received : option Z
}.
End PaymentIntent.

Module Product.
Record t : Type := mk { id : string }.
End Product.

Module Price.
Record t : Type := mk { id : string; unit_amount : PrimFloat.float }.
End Price.

Module Charge.
Record t : Type := mk {
  id : string;
  paid : bool;
  refunded : bool;
  amount : option Z;
  amount_refunded : Z
}.
End Charge.

Module Account.
Record requirements_t : Type := mkRequirements {
  currently_due : option (list string)
}.
Record t : Type := mk {
  id : string;
  details_submitted : bool;
  charges_enabled : bool;
  payouts_enabled : bool;
  requirements : option requirements_t
}.
End Account.

Module Transfer.
Record t : Type := mk {
  id : string;
  amount : Z;
  currency : string;
  destination : string;
  object : string;
  created : Z
}.
End Transfer.

Module Event.
Record t : Type := mk { type : string }.
End Event.

(** ** Parameters of the SDK calls the service issues *)

Record PaymentMethodListParams : Type := {
  pml_customer : string;
  pml_type : string;
  pml_limit : Z
}.

Record SubscriptionCreateParams : Type := {
  sc_customer : string;
  sc_items : list string;          (* [{ price }] *)
  sc_trial_end : option Z          (* absent unless assigned *)
}.

Record PaymentIntentCreateParams : Type := {
  pic_amount : Z;
  pic_currency : string;
  pic_customer : string;
  pic_payment_method : string;
  pic_off_session : bool;
  pic_confirm : bool;
  pic_description : string
}.

Record PriceCreateParams : Type := {
  prc_unit_amount : PrimFloat.float;
  prc_currency : string;
  prc_recurring_interval : string;
  prc_product : string
}.

Record ChargeListParams : Type := {
  cl_created : option (Z * Z);     (* { gte, lte } *)
  cl_payment_intent : option string;
  cl_limit : Z;
  cl_starting_after : option string
}.

Record TransferCreateParams : Type := {
  tc_amount : Z;
  tc_currency : string;
  tc_destination : string
}.

(** The calls of the SDK used by the service, indexed by what they resolve to. *)
Inductive StripeCall : Type -> Type :=
| paymentMethods_list (p : PaymentMethodListParams) : StripeCall (ApiList PaymentMethod.t)
| paymentMethods_attach (paymentMethodId customer : string) : StripeCall PaymentMethod.t
| customers_update (customerId default_payment_method : string) : StripeCall Customer.t
| subscriptions_create (p : SubscriptionCreateParams) : StripeCall Subscription.t
| paymentIntents_create (p : PaymentIntentCreateParams) : StripeCall PaymentIntent.t
| paymentIntents_list (limit : Z) : StripeCall (ApiList PaymentIntent.t)
| products_create (name : string) : StripeCall Product.t
| prices_create (p : PriceCreateParams) : StripeCall Price.t
| charges_list (p : ChargeListParams) : StripeCall (ApiList Charge.t)
| accounts_retrieve (id : string) : StripeCall Account.t
| transfers_create (p : TransferCreateParams) : StripeCall Transfer.t
| webhooks_constructEvent (rawBody : string) (sig secret : option string) : StripeCall Event.t.

(** A call with its result type forgotten, as kept in the call history. *)
Definition AnyCall : Type := { R : Type & StripeCall R }.
Definition issued {R : Type} (c : StripeCall R) : AnyCall := existT R c.

(** What an SDK call settles to: a value, or a Stripe error carrying the
    optional [code] and the [message] the service reads. *)
Inductive ApiResult (R : Type) : Type :=
| Resolved (r : R)
| Rejected (code : option string) (message : string).
Arguments Resolved {R} _.
Arguments Rejected {R} _ _.

(** A platform state [W] together with the answers of the SDK over it. *)
Definition StripeClient (W : Type) : Type :=
  forall R : Type, StripeCall R -> W -> ApiResult R * W.

(** ** Exceptions, logger, monad *)

Inductive Exception : Type :=
| StripeError (code : option string) (message : string)
| BadRequestException (message : string)
| TypeError (message : string).

(** [err.code]: only Stripe errors carry one. *)
Definition err_code (e : Exception) : option string :=
  match e with
  | StripeError c _ => c
  | _ => None
  end.

Definition err_message (e : Exception) : string :=
  match e with
  | StripeError _ m | BadRequestException m | TypeError m => m
  end.

Inductive LogLevel : Type := LOG | WARN | ERROR.

Inductive Outcome (A : Type) : Type :=
| Return (a : A)
| Throw (e : Exception)
| OutOfFuel.
Arguments Return {A} _.
Arguments Throw {A} _.
Arguments OutOfFuel {A}.

Section Service.

Context {W : Type}.
Variable stripeClient : StripeClient W.

(** The state threaded through a request. *)
Record St : Type := mkSt {
  world : W;
  now : Z;                           (* Date.now(), milliseconds *)
  calls : list AnyCall;
  logs : list (LogLevel * string)
}.

Definition M (A : Type) : Type := St -> Outcome A * St.

Definition ret {A} (a : A) : M A := fun st => (Return a, st).

Definition bind {A B} (m : M A) (k : A -> M B) : M B :=
  fun st =>
    match m st with
    | (Return a, st') => k a st'
    | (Throw e, st') => (Throw e, st')
    | (OutOfFuel, st') => (OutOfFuel, st')
    end.

Definition throw {A} (e : Exception) : M A := fun st => (Throw e, st).

(** [try { body } catch (err) { handler }] *)
Definition try_catch {A} (body : M A) (handler : Exception -> M A) : M A :=
  fun st =>
    match body st with
    | (Throw e, st') => handler e st'
    | r => r
    end.

(** [await this.stripeClient.<call>] *)
Definition await {R} (c : StripeCall R) : M R :=
  fun st =>
    let '(r, w') := stripeClient R c (world st) in
    let st' := mkSt w' (now st) (calls st ++ [issued c]) (logs st) in
    match r with
    | Resolved v => (Return v, st')
    | Rejected code msg => (Throw (StripeError code msg), st')
    end.

Definition logger (lvl : LogLevel) (msg : string) : M unit :=
  fun st => (Return tt, mkSt (world st) (now st) (calls st) (logs st ++ [(lvl, msg)])).

Definition Date_now : M Z := fun st => (Return (now st), st).

End Service.

Arguments St : clear implicits.
Arguments M : clear implicits.

Declare Scope svc_scope.
Delimit Scope svc_scope with svc.
Notation "'let*' x ':=' c1 'in' c2" := (bind c1 (fun x => c2))
  (at level 10, x name, c1 at level 99, c2 at level 200) : svc_scope.
Notation "'do' c1 ';;' c2" := (bind c1 (fun _ => c2))
  (at level 10, c1 at level 99, c2 at level 200) : svc_scope.
Local Open Scope svc_scope.

(** A JavaScript [Date]: its time value in milliseconds, or none for an
    invalid date (whose [getTime()] is [NaN]). *)
Record Date : Type := mkDate { getTime : option Z }.

(** ** JavaScript numbers *)

(** The double that holds the integer [z]: [z] itself, rounded to the
    nearest double when it has more than 53 bits. *)
Definition number_of_Z (z : Z) : PrimFloat.float :=
  FloatOps.SF2Prim (SpecFloat.binary_normalize FloatOps.prec FloatOps.emax z 0 false).

(** The real number a double stands for; none for [NaN] and the infinities. *)
Definition real_value (x : PrimFloat.float) : option Q :=
  match FloatOps.Prim2SF x with
  | SpecFloat.S754_zero _ => Some 0%Q
  | SpecFloat.S754_finite s m e =>
      Some (inject_Z (if s then Z.neg m else Z.pos m) * Qpower 2 e)%Q
  | SpecFloat.S754_infinity _ | SpecFloat.S754_nan => None
  end.

(** [!x] for a number: it holds of [0], [-0] and [NaN]. *)
Definition falsy_number (x : PrimFloat.float) : bool :=
  PrimFloat.is_nan x || PrimFloat.is_zero x.

(** [Math.round]: the nearest integer, halves going up; [-0] for what rounds
    to zero from below, and [NaN] and the infinities unchanged. *)
Definition Math_round (x : PrimFloat.float) : PrimFloat.float :=
  match real_value x with
  | Some q =>
      let n := Qfloor (q + (1 # 2))%Q in
      if (n =? 0) && PrimFloat.get_sign x then PrimFloat.neg_zero else number_of_Z n
  | None => x
  end.

(** ** [StripeService] *)

Section StripeService.

Context {W : Type}.
Variable stripeClient : StripeClient W.

Let call {R : Type} : StripeCall R -> M W R := await stripeClient.

(** [createSubscription(customerId, priceId, startDate?)] *)
Definition createSubscription (customerId priceId : string) (startDate : option Date)
  : M W Subscription.t :=
  try_catch
    (let params := {| sc_customer := customerId; sc_items := [priceId];
                      sc_trial_end := None |} in
     let* params :=
       match startDate with
       | Some d =>
           let* now_ms := Date_now in
           match getTime d with
           | Some t =>
               if now_ms <? t
               then
                 let unixTs := t / 1000 in
                 ret {| sc_customer := sc_customer params; sc_items := sc_items params;
                        sc_trial_end := Some unixTs |}
               else ret params
           | None => ret params
           end
       | None => ret params
       end in
     call (subscriptions_create params))
    (fun err =>
       do logger ERROR ("Erreur lors de la création d'un abonnement pour " +:+ customerId) ;;
       throw (BadRequestException "Impossible de créer l’abonnement Stripe")).

(** [attachPaymentMethod(customerId, paymentMethodId)] *)
Definition attachPaymentMethod (customerId paymentMethodId : string) : M W unit :=
  try_catch
    (let* existingPMs :=
       call (paymentMethods_list
               {| pml_customer := customerId; pml_type := "card"; pml_limit := 100 |}) in
     let alreadyAttached :=
       existsb (fun pm => String.eqb (PaymentMethod.id pm) paymentMethodId)
               (data existingPMs) in
     if alreadyAttached
     then throw (BadRequestException
                   "Cette méthode de paiement est déjà attachée au client.")
     else
       let* _ := call (paymentMethods_attach paymentMethodId customerId) in
       let* _ := call (customers_update customerId paymentMethodId) in
       ret tt)
    (fun err =>
       do logger ERROR ("Impossible d’attacher le PaymentMethod " +:+ paymentMethodId
                        +:+ " au client " +:+ customerId) ;;
       throw (BadRequestException
                "Erreur lors de l’attachement de la méthode de paiement.")).

Record ChargeResult : Type := { paymentIntentId : string }.

(** [err.code === k] *)
Definition code_is (err : Exception) (k : string) : bool :=
  match err_code err with
  | Some c => String.eqb c k
  | None => false
  end.

(** [chargeCustomer(customerId, amountInCents, description)] *)
Definition chargeCustomer (customerId : string) (amountInCents : Z) (description : string)
  : M W ChargeResult :=
  try_catch
    (let* pms :=
       call (paymentMethods_list
               {| pml_customer := customerId; pml_type := "card"; pml_limit := 1 |}) in
     match data pms with
     | [] => throw (BadRequestException "Aucun moyen de paiement attaché au client.")
     | pm0 :: _ =>
         let paymentMethodId := PaymentMethod.id pm0 in
         let* intent :=
           call (paymentIntents_create
                   {| pic_amount := amountInCents;
                      pic_currency := "eur";
                      pic_customer := customerId;
                      pic_payment_method := paymentMethodId;
                      pic_off_session := true;
                      pic_confirm := true;
                      pic_description := description |}) in
         ret {| paymentIntentId := PaymentIntent.id intent |}
     end)
    (fun err =>
       do logger ERROR ("Erreur lors du prélèvement pour le client " +:+ customerId) ;;
       if code_is err "authentication_required" || code_is err "card_declined"
       then throw (BadRequestException ("Paiement échoué : " +:+ err_message err))
       else throw (BadRequestException "Erreur lors du prélèvement Stripe")).

(** [createPriceForPlan(planName, planPrice)]; [!planName] holds of the empty
    string. *)
Definition createPriceForPlan (planName : string) (planPrice : PrimFloat.float)
  : M W Price.t :=
  if String.eqb planName "" || falsy_number planPrice
  then throw (BadRequestException "Le plan doit avoir un nom et un prix valides.")
  else
    try_catch
      (let* product := call (products_create planName) in
       let* price :=
         call (prices_create
                 {| prc_unit_amount := Math_round (planPrice * 100)%float;
                    prc_currency := "eur";
                    prc_recurring_interval := "month";
                    prc_product := Product.id product |}) in
       ret price)
      (fun err =>
         do logger ERROR ("Erreur lors de la création du plan " +:+ planName) ;;
         throw (BadRequestException "Impossible de créer le plan sur Stripe")).

(** The body of [for (const charge of chargesPage.data)] in [getTotalRevenue]. *)
Definition add_charge (totalAmount : Z) (charge : Charge.t) : Z :=
  if Charge.paid charge && negb (Charge.refunded charge)
  then totalAmount + default 0 (Charge.amount charge)
  else totalAmount.

(** The [while (hasMore)] loop of [getTotalRevenue]; [fuel] bounds the number
    of iterations, which the source leaves to the platform. *)
Fixpoint getTotalRevenue_while (fuel : nat) (startDate endDate : Z)
    (hasMore : bool) (startingAfter : option string) (totalAmount : Z) : M W Z :=
  if hasMore then
    match fuel with
    | O => fun st => (OutOfFuel, st)
    | S fuel' =>
        let* chargesPage :=
          call (charges_list
                  {| cl_created := Some (startDate, endDate);
                     cl_payment_intent := None;
                     cl_limit := 100;
                     cl_starting_after := startingAfter |}) in
        let totalAmount := fold_left add_charge (data chargesPage) totalAmount in
        let hasMore := has_more chargesPage in
        if hasMore then
          match last (data chargesPage) with
          | Some c =>
              getTotalRevenue_while fuel' startDate endDate hasMore
                                    (Some (Charge.id c)) totalAmount
          | None =>
              throw (TypeError "Cannot read properties of undefined (reading 'id')")
          end
        else
          getTotalRevenue_while fuel' startDate endDate hasMore None totalAmount
    end
  else ret totalAmount.

(** [getTotalRevenue(startDate, endDate)] *)
Definition getTotalRevenue (fuel : nat) (startDate endDate : Z) : M W PrimFloat.float :=
  let* totalAmount := getTotalRevenue_while fuel startDate endDate true None 0 in
  ret (number_of_Z totalAmount / 100)%float.

Record MethodStat : Type := {
  method : string;
  count : Z;
  value : PrimFloat.float
}.

Record PaymentStats : Type := {
  successRate : PrimFloat.float;
  averageValue : PrimFloat.float;
  refundRate : PrimFloat.float;
  byMethod : list MethodStat
}.

(** [chargesPage.data.some((c) => c.refunded || c.amount_refunded > 0)] *)
Definition some_refunded (charges : list Charge.t) : bool :=
  existsb (fun c => Charge.refunded c || (0 <? Charge.amount_refunded c)) charges.

Definition intent_charges_request (id : string) : ChargeListParams :=
  {| cl_created := None;
     cl_payment_intent := Some id;
     cl_limit := 100;
     cl_starting_after := None |}.

(** The loop [for (const pi of payments)] filling the set [refundedIntents]. *)
Fixpoint detect_refunded (payments : list PaymentIntent.t) (refundedIntents : gset string)
  : M W (gset string) :=
  match payments with
  | [] => ret refundedIntents
  | pi :: rest =>
      let* chargesPage := call (charges_list (intent_charges_request (PaymentIntent.id pi))) in
      if some_refunded (data chargesPage)
      then detect_refunded rest ({[ PaymentIntent.id pi ]} ∪ refundedIntents)
      else detect_refunded rest refundedIntents
  end.

(** The object [methodStats]: its own properties in insertion order, which is
    the order of [Object.entries] for the keys met here (names of payment
    method types: neither array indices nor names inherited from
    [Object.prototype]). *)
Definition MethodStats : Type := list (string * (Z * PrimFloat.float)).

Fixpoint obj_get (o : MethodStats) (k : string) : option (Z * PrimFloat.float) :=
  match o with
  | [] => None
  | (k', v) :: o' => if String.eqb k' k then Some v else obj_get o' k
  end.

(** [o[k] = v]: overwrite in place, or add as the last property. *)
Fixpoint obj_set (o : MethodStats) (k : string) (v : Z * PrimFloat.float) : MethodStats :=
  match o with
  | [] => [(k, v)]
  | (k', v') :: o' =>
      if String.eqb k' k then (k', v) :: o' else (k', v') :: obj_set o' k v
  end.

(** The body of [for (const pi of successful)]. *)
Definition add_successful (acc : MethodStats * PrimFloat.float) (pi : PaymentIntent.t)
  : MethodStats * PrimFloat.float :=
  let '(methodStats, sumAmounts) := acc in
  let method := default "unknown" (head (PaymentIntent.payment_method_types pi)) in
  let amountEuro :=
    (number_of_Z (default 0%Z (PaymentIntent.amount_received pi)) / 100)%float in
  let sumAmounts := (sumAmounts + amountEuro)%float in
  let methodStats :=
    match obj_get methodStats method with
    | None => obj_set methodStats method (0, 0%float)
    | Some _ => methodStats
    end in
  let methodStats :=
    match obj_get methodStats method with
    | Some (c, v) => obj_set methodStats method (c + 1, (v + amountEuro)%float)
    | None => methodStats
    end in
  (methodStats, sumAmounts).

(** [getPaymentStats()] *)
Definition getPaymentStats : M W PaymentStats :=
  let* paymentsPage := call (paymentIntents_list 100) in
  let payments := data paymentsPage in
  let totalCount := number_of_Z (Z.of_nat (length payments)) in
  let successful := filter (fun p => PaymentIntent.status p = "succeeded") payments in
  let* refundedIntents := detect_refunded payments ∅ in
  let '(methodStats, sumAmounts) := fold_left add_successful successful ([], 0%float) in
  let avgValue :=
    if (0 <? length successful)%nat
    then (sumAmounts / number_of_Z (Z.of_nat (length successful)))%float
    else 0%float in
  let successRate :=
    if (0 <? length payments)%nat
    then (number_of_Z (Z.of_nat (length successful)) / totalCount * 100)%float
    else 0%float in
  let refundRate :=
    if (0 <? length payments)%nat
    then (number_of_Z (Z.of_nat (size refundedIntents)) / totalCount * 100)%float
    else 0%float in
  ret {| successRate := successRate;
         averageValue := avgValue;
         refundRate := refundRate;
         byMethod :=
           map (fun '(m, (c, v)) => {| method := m; count := c; value := v |})
               methodStats |}.

Record AccountStatus : Type := {
  isValid : bool;
  isEnabled : bool;
  needsIdCard : bool
}.

(** [s.includes(sub)] *)
Fixpoint includes (s sub : string) : bool :=
  String.prefix sub s ||
  match s with
  | EmptyString => false
  | String _ s' => includes s' sub
  end.

(** [getStripeAccountStatus(stripeAccountId)] *)
Definition getStripeAccountStatus (stripeAccountId : string) : M W AccountStatus :=
  try_catch
    (let* account := call (accounts_retrieve stripeAccountId) in
     let isValid := Account.details_submitted account in
     let isEnabled := Account.charges_enabled account && Account.payouts_enabled account in
     let needsIdCard :=
       match Account.requirements account with
       | Some r =>
           match Account.currently_due r with
           | Some due => existsb (fun req => includes req "verification.document") due
           | None => false
           end
       | None => false
       end in
     ret {| isValid := isValid; isEnabled := isEnabled; needsIdCard := needsIdCard |})
    (fun err =>
       do logger ERROR ("Erreur lors de la récupération du statut du compte "
                        +:+ stripeAccountId) ;;
       ret {| isValid := false; isEnabled := false; needsIdCard := false |}).


End StripeService.

(** ** [StripeController]: the webhook route *)

Section StripeController.

Context {W : Type}.
Variable stripeClient : StripeClient W.
(** [configService.get(key)] *)
Variable configService : string -> option string.

(** What the route reads of the request: the raw body and the
    [stripe-signature] header. *)
Record Request : Type := {
  rawBody : string;
  stripe_signature : option string
}.

Record WebhookAck : Type := { received : bool }.

(** [handleWebhook(req)] *)
Definition handleWebhook (req : Request) : M W WebhookAck :=
  let rawBody := rawBody req in
  let sig := stripe_signature req in
  let* event :=
    try_catch
      (await stripeClient
         (webhooks_constructEvent rawBody sig (configService "STRIPE_WEBHOOK_SECRET")))
      (fun err =>
         throw (BadRequestException ("Signature invalide : " +:+ err_message err))) in
  do (if String.eqb (Event.type event) "invoice.payment_succeeded"
      then logger LOG "Invoice payée : traiter..."
      else if String.eqb (Event.type event) "payment_intent.succeeded"
      then logger LOG "Paiement réussi : traiter..."
      else if String.eqb (Event.type event) "charge.refunded"
      then logger LOG "Charge remboursée : traitement…"
      else logger LOG ("Événement non géré : " +:+ Event.type event)) ;;
  ret {| received := true |}.

End StripeController.

(** [getStatus()] of an HTTP exception: 400 for a [BadRequestException]; the
    other exceptions are no HTTP exceptions and have no such method. *)
Definition getStatus (e : Exception) : option Z :=
  match e with
  | BadRequestException _ => Some 400
  | _ => None
  end.

(** The event types the [switch] of [handleWebhook] has a case for. *)
Definition handled_event_types : list string :=
  ["invoice.payment_succeeded"; "payment_intent.succeeded"; "charge.refunded"].

(** ** Properties of the platform's answers used in the statements *)

Section Platform.

Context {W : Type}.
Variable stripeClient : StripeClient W.

(** The platform serves the charges of the window as the pages [pages]: each
    page but the last announces more and is followed by the page requested
    after its last charge. *)
Inductive serves_pages (startDate endDate : Z)
  : W -> option string -> list (ApiList Charge.t) -> W -> Prop :=
| serves_last_page w cursor page w' :
    stripeClient _ (charges_list {| cl_created := Some (startDate, endDate);
                                    cl_payment_intent := None;
                                    cl_limit := 100;
                                    cl_starting_after := cursor |}) w
    = (Resolved page, w') ->
    has_more page = false ->
    serves_pages startDate endDate w cursor [page] w'
| serves_next_page w cursor page c w' pages w'' :
    stripeClient _ (charges_list {| cl_created := Some (startDate, endDate);
                                    cl_payment_intent := None;
                                    cl_limit := 100;
                                    cl_starting_after := cursor |}) w
    = (Resolved page, w') ->
    has_more page = true ->
    last (data page) = Some c ->
    serves_pages startDate endDate w' (Some (Charge.id c)) pages w'' ->
    serves_pages startDate endDate w cursor (page :: pages) w''.

(** The platform answers the charge lookups of the payment attempts
    [payments], in order, with the pages [pages]. *)
Inductive serves_lookups
  : W -> list PaymentIntent.t -> list (ApiList Charge.t) -> W -> Prop :=
| serves_lookups_nil w : serves_lookups w [] [] w
| serves_lookups_cons w pi page w' payments pages w'' :
    stripeClient _ (charges_list (intent_charges_request (PaymentIntent.id pi))) w
    = (Resolved page, w') ->
    serves_lookups w' payments pages w'' ->
    serves_lookups w (pi :: payments) (page :: pages) w''.

End Platform.

(** ** Reference quantities *)

(** A charge counts towards revenue when paid and not refunded. *)
Definition counts_as_revenue (c : Charge.t) : Prop :=
  Charge.paid c = true ∧ Charge.refunded c = false.

#[global] Instance counts_as_revenue_dec c : Decision (counts_as_revenue c).
Proof. unfold counts_as_revenue. apply _. Defined.

Definition sumZ (l : list Z) : Z := foldr Z.add 0 l.

(** Sum, in cents, of the amounts of the charges that count. *)
Definition revenue_cents (charges : list Charge.t) : Z :=
  sumZ ((fun c => default 0 (Charge.amount c)) <$> filter counts_as_revenue charges).

(** *** Cards and one-shot charges *)

(** The exception [attachPaymentMethod] throws from its [catch]. *)
Definition attach_failed : Exception :=
  BadRequestException "Erreur lors de l’attachement de la méthode de paiement.".

(** The exception [chargeCustomer] throws from its [catch] for a failure it
    does not classify. *)
Definition charge_failed : Exception :=
  BadRequestException "Erreur lors du prélèvement Stripe".

Definition card_list_request (customerId : string) (limit : Z) : StripeCall _ :=
  paymentMethods_list {| pml_customer := customerId; pml_type := "card"; pml_limit := limit |}.

(** The platform's codes that [chargeCustomer] reports as a failed payment. *)
Definition declined (code : option string) : Prop :=
  code = Some "authentication_required" \/ code = Some "card_declined".

Definition charge_request (customerId : string) (amountInCents : Z)
    (description paymentMethodId : string) : StripeCall _ :=
  paymentIntents_create
    {| pic_amount := amountInCents;
       pic_currency := "eur";
       pic_customer := customerId;
       pic_payment_method := paymentMethodId;
       pic_off_session := true;
       pic_confirm := true;
       pic_description := description |}.

(** *** Payment statistics *)

(** The sum of doubles, added from zero in the order of the list. *)
Definition float_sum (l : list PrimFloat.float) : PrimFloat.float :=
  fold_left PrimFloat.add l 0%float.

(** The first payment method type an attempt declares. *)
Definition first_method (pi : PaymentIntent.t) : string :=
  match PaymentIntent.payment_method_types pi with
  | m :: _ => m
  | [] => "unknown"
  end.

(** What an attempt received, in euros: the double quotient by 100 of the
    cents received, none counting as zero. *)
Definition received_euros (pi : PaymentIntent.t) : PrimFloat.float :=
  match PaymentIntent.amount_received pi with
  | Some cents => (number_of_Z cents / 100)%float
  | None => (number_of_Z 0 / 100)%float
  end.

Definition succeeded (p : PaymentIntent.t) : Prop := PaymentIntent.status p = "succeeded".

(** The attempts of [l] whose first declared payment method type is [m]. *)
Definition paid_by (m : string) (l : list PaymentIntent.t) : list PaymentIntent.t :=
  filter (fun p => first_method p = m) l.

(** A charge refunded in full or in part. *)
Definition refunded_charge (c : Charge.t) : Prop :=
  Charge.refunded c = true \/ 0 < Charge.amount_refunded c.

#[global] Instance refunded_charge_dec c : Decision (refunded_charge c).
Proof. unfold refunded_charge. apply _. Defined.

(** The ids of the attempts one of whose charges is refunded, given the page
    of charges looked up for each attempt. *)
Definition refunded_ids (payments : list PaymentIntent.t) (pages : list (ApiList Charge.t))
  : gset string :=
  list_to_set
    (PaymentIntent.id <$>
       (filter (fun x => Exists refunded_charge (data x.2)) (zip payments pages)).*1).

(** What the accumulators hold once the attempts [l] have been processed:
    one property per method met, with the number of attempts of that method
    and the sum of what they received, and the sum of all that was received. *)
Definition stats_of (o : MethodStats) (s : PrimFloat.float) (l : list PaymentIntent.t) : Prop :=
  NoDup o.*1
  /\ s = float_sum (received_euros <$> l)
  /\ forall m,
      match obj_get o m with
      | Some (c, v) =>
          m ∈ first_method <$> l
          /\ c = Z.of_nat (length (paid_by m l))
          /\ v = float_sum (received_euros <$> paid_by m l)
      | None => m ∉ first_method <$> l
      end.

(** An entry of [byMethod] made of a property of [methodStats]. *)
Definition entry_of (x : string * (Z * PrimFloat.float)) : MethodStat :=
  let '(m, (c, v)) := x in {| method := m; count := c; value := v |}.

(** ** Test platforms *)

Module Fixture.

Definition down {R : Type} : ApiResult R :=
  Rejected (Some "api_error") "platform unavailable".

Definition start {W : Type} (w : W) (now_ms : Z) : St W :=
  {| world := w; now := now_ms; calls := []; logs := [] |}.

Definition ch (id : string) (paid refunded : bool) (amount refunded_amount : Z) : Charge.t :=
  {| Charge.id := id; Charge.paid := paid; Charge.refunded := refunded;
     Charge.amount := Some amount; Charge.amount_refunded := refunded_amount |}.

(** Four charges of a window on two pages: one paid and one refunded, then
    one unpaid and one paid. *)
Definition page1 : ApiList Charge.t :=
  {| data := [ch "ch_1" true false 1999 0; ch "ch_2" true true 500 500];
     has_more := true |}.
Definition page2 : ApiList Charge.t :=
  {| data := [ch "ch_3" false false 700 0; ch "ch_4" true false 1 0];
     has_more := false |}.

Definition two_pages : StripeClient unit :=
  fun R c =>
    match c in StripeCall R return unit -> ApiResult R * unit with
    | charges_list p =>
        fun w =>
          (match cl_created p, cl_payment_intent p with
           | Some (gte, lte), None =>
               if (gte =? 1700000000) && (lte =? 1702592000) && (cl_limit p =? 100)
               then
                 match cl_starting_after p with
                 | None => Resolved page1
                 | Some cursor =>
                     if String.eqb cursor "ch_2" then Resolved page2 else down
                 end
               else Resolved {| data := []; has_more := false |}
           | _, _ => down
           end, w)
    | _ => fun w => (down, w)
    end.

(** A customer without any card. *)
Definition no_card : StripeClient unit :=
  fun R c =>
    match c in StripeCall R return unit -> ApiResult R * unit with
    | paymentMethods_list _ => fun w => (Resolved {| data := []; has_more := false |}, w)
    | _ => fun w => (down, w)
    end.

(** A platform that keeps the cards attached to each customer, most recent
    first, and attaches whatever it is asked to. *)
Definition Wallet : Type := list (string * string).

Definition cards_of (customer : string) (w : Wallet) : list PaymentMethod.t :=
  PaymentMethod.mk <$> (filter (fun x => x.1 = customer) w).*2.

Definition wallet : StripeClient Wallet :=
  fun R c =>
    match c in StripeCall R return Wallet -> ApiResult R * Wallet with
    | paymentMethods_list p =>
        fun w =>
          (Resolved {| data := take (Z.to_nat (pml_limit p)) (cards_of (pml_customer p) w);
                       has_more := false |}, w)
    | paymentMethods_attach pm customer =>
        fun w => (Resolved (PaymentMethod.mk pm), (customer, pm) :: w)
    | customers_update customer _ => fun w => (Resolved (Customer.mk customer), w)
    | _ => fun w => (down, w)
    end.

(** A platform that creates products and prices. *)
Definition catalog : StripeClient unit :=
  fun R c =>
    match c in StripeCall R return unit -> ApiResult R * unit with
    | products_create _ => fun w => (Resolved (Product.mk "prod_1"), w)
    | prices_create p => fun w => (Resolved (Price.mk "price_1" (prc_unit_amount p)), w)
    | _ => fun w => (down, w)
    end.



Definition attempt (id status : string) (types : list string) (received : Z)
  : PaymentIntent.t :=
  {| PaymentIntent.id := id; PaymentIntent.status := status;
     PaymentIntent.payment_method_types := types;
     PaymentIntent.amount_received := Some received |}.

(** Four payment attempts: two succeeded by card, one of them partly refunded
    through two charges; one succeeded by SEPA debit; one failed. *)
Definition attempts : list PaymentIntent.t :=
  [attempt "pi_1" "succeeded" ["card"] 1000;
   attempt "pi_2" "succeeded" ["sepa_debit"; "card"] 2500;
   attempt "pi_3" "requires_payment_method" ["card"] 0;
   attempt "pi_4" "succeeded" ["card"] 3000].

Definition charges_of (id : string) : list Charge.t :=
  if String.eqb id "pi_1" then [ch "ch_1" true false 1000 0]
  else if String.eqb id "pi_2" then [ch "ch_2" true false 2500 0]
  else if String.eqb id "pi_4"
       then [ch "ch_4a" true false 1500 500; ch "ch_4b" true true 1500 1500]
  else [].

Definition history : StripeClient unit :=
  fun R c =>
    match c in StripeCall R return unit -> ApiResult R * unit with
    | paymentIntents_list _ =>
        fun w => (Resolved {| data := attempts; has_more := false |}, w)
    | charges_list p =>
        fun w =>
          (match cl_payment_intent p with
           | Some id => Resolved {| data := charges_of id; has_more := false |}
           | None => down
           end, w)
    | _ => fun w => (down, w)
    end.

(** The pages of charges looked up for each of the attempts. *)
Definition lookups : list (ApiList Charge.t) :=
  (fun pi => {| data := charges_of (PaymentIntent.id pi); has_more := false |}) <$> attempts.

End Fixture.

(** ** The rest of the SDK surface

    The calls issued by the remaining methods of [StripeService] and by the
    Next.js payment pages.  Their history and the response under
    construction are kept beside the platform, in the world of the monad. *)

(** A JSON value, as found in a parsed request body and as sent back. *)
#[warnings="-register-all"] Inductive Json : Type :=
| JNull
| JBool (b : bool)
| JNum (q : Q)
| JStr (s : string)
| JArr (items : list Json)
| JObj (fields : list (string * Json)).

Module ListedCustomer.
Record t : Type := mk { id : string; created : Z }.
End ListedCustomer.

Module AccountLink.
Record t : Type := mk { url : string }.
End AccountLink.

Module ManualIntent.
Record t : Type := mk { id : string; client_secret : option string }.
End ManualIntent.

Module PortalSession.
Record t : Type := mk { url : string }.
End PortalSession.

Module CheckoutSession.
Record t : Type := mk { id : string }.
End CheckoutSession.

Record AccountCreateParams : Type := {
  ac_type : string;
  ac_card_payments_requested : bool;
  ac_transfers_requested : bool;
  ac_country : string
}.

Record AccountLinkCreateParams : Type := {
  al_account : string;
  al_refresh_url : string;
  al_return_url : string;
  al_type : string
}.

(** The fields of the manual-capture intents; the values read from the body
    are passed on as they are. *)
Record ManualIntentParams : Type := {
  mi_amount : option Json;
  mi_currency : option Json;
  mi_customer : option Json;
  mi_capture_method : string;
  mi_payment_method_types : list string;
  mi_transfer_destination : option Json;
  mi_metadata : list (string * option Json)
}.

(** The fields of a Checkout session with its single line item; [cs_customer]
    is absent unless assigned. *)
Record CheckoutSessionParams : Type := {
  cs_mode : string;
  cs_payment_method_types : list string;
  cs_price : option Json;
  cs_quantity : Json;
  cs_success_url : string;
  cs_cancel_url : string;
  cs_customer : option Json
}.

Inductive StripeCallX : Type -> Type :=
| customers_create (email description : string) : StripeCallX Customer.t
| customers_list (limit : Z) (starting_after : option string)
  : StripeCallX (ApiList ListedCustomer.t)
| subscriptions_update (id : string) (cancel_at_period_end : bool)
  : StripeCallX Subscription.t
| subscriptions_list (status : string) (limit : Z) (starting_after : option string)
  : StripeCallX (ApiList Subscription.t)
| accounts_create (p : AccountCreateParams) : StripeCallX Account.t
| accountLinks_create (p : AccountLinkCreateParams) : StripeCallX AccountLink.t
| paymentIntents_create_manual (p : ManualIntentParams) : StripeCallX ManualIntent.t
| paymentIntents_capture (id : option Json) : StripeCallX PaymentIntent.t
| billingPortal_sessions_create (customer : option Json) (return_url : string)
  : StripeCallX PortalSession.t
| checkout_sessions_create (p : CheckoutSessionParams) : StripeCallX CheckoutSession.t.

Definition AnyCallX : Type := { R : Type & StripeCallX R }.
Definition issuedX {R : Type} (c : StripeCallX R) : AnyCallX := existT R c.

Definition StripeClientX (W : Type) : Type :=
  forall R : Type, StripeCallX R -> W -> ApiResult R * W.

(** The response object [res] of a page: the status set by [res.status], the
    headers set, and what [res.json] has sent, with the status it went with. *)
Record Response : Type := mkResponse {
  statusCode : Z;
  headers : list (string * string);
  sent : list (Z * Json)
}.

Definition fresh_response : Response :=
  {| statusCode := 200; headers := []; sent := [] |}.

Record Ext (W : Type) : Type := mkExt {
  platform : W;
  requests : list AnyCallX;
  res : Response
}.
Arguments mkExt {W} _ _ _.
Arguments platform {W} _.
Arguments requests {W} _.
Arguments res {W} _.

Section ServiceX.

Context {W : Type}.
Variable stripeClient : StripeClientX W.

(** [await stripe.<call>] for the calls above. *)
Definition awaitX {R} (c : StripeCallX R) : M (Ext W) R :=
  fun st =>
    let '(r, w') := stripeClient R c (platform (world st)) in
    let st' := mkSt (mkExt w' (requests (world st) ++ [issuedX c]) (res (world st)))
                    (now st) (calls st) (logs st) in
    match r with
    | Resolved v => (Return v, st')
    | Rejected code msg => (Throw (StripeError code msg), st')
    end.

Definition update_res (f : Response -> Response) : M (Ext W) unit :=
  fun st =>
    (Return tt,
     mkSt (mkExt (platform (world st)) (requests (world st)) (f (res (world st))))
          (now st) (calls st) (logs st)).

(** [res.setHeader(name, value)] *)
Definition res_setHeader (name value : string) : M (Ext W) unit :=
  update_res (fun r => mkResponse (statusCode r) (headers r ++ [(name, value)]) (sent r)).

(** [res.status(code)] *)
Definition res_status (code : Z) : M (Ext W) unit :=
  update_res (fun r => mkResponse code (headers r) (sent r)).

(** [res.json(body)] *)
Definition res_json (body : Json) : M (Ext W) unit :=
  update_res (fun r => mkResponse (statusCode r) (headers r)
                                  (sent r ++ [(statusCode r, body)])).

End ServiceX.

(** *** [StripeService], continued *)

Module CustomerStats.
Record t : Type := mk { total : Z; new : Z }.
End CustomerStats.

Section StripeServiceX.

Context {W : Type}.
Variable stripeClient : StripeClientX W.
(** [configService.get(key)] *)
Variable configService : string -> option string.

Let callX {R : Type} : StripeCallX R -> M (Ext W) R := awaitX stripeClient.

(** [createCustomer(email, description)] *)
Definition createCustomer (email description : string) : M (Ext W) Customer.t :=
  try_catch
    (callX (customers_create email description))
    (fun err =>
       do logger ERROR "Erreur lors de la création du client Stripe" ;;
       throw (BadRequestException "Impossible de créer le client Stripe")).

(** [cancelSubscriptionAtPeriodEnd(subscriptionId)] *)
Definition cancelSubscriptionAtPeriodEnd (subscriptionId : string)
  : M (Ext W) Subscription.t :=
  try_catch
    (callX (subscriptions_update subscriptionId true))
    (fun err =>
       do logger ERROR ("Erreur lors de l'annulation de l'abonnement " +:+ subscriptionId) ;;
       throw (BadRequestException "Impossible d’annuler l’abonnement Stripe")).

(** [getCustomerStats()]: the [while (hasMore)] loop. *)
Fixpoint getCustomerStats_while (fuel : nat) (hasMore : bool)
    (startingAfter : option string) (allCustomers : list ListedCustomer.t)
  : M (Ext W) (list ListedCustomer.t) :=
  if hasMore then
    match fuel with
    | O => fun st => (OutOfFuel, st)
    | S fuel' =>
        let* page := callX (customers_list 100 startingAfter) in
        let allCustomers := allCustomers ++ data page in
        let hasMore := has_more page in
        if hasMore then
          match last (data page) with
          | Some c =>
              getCustomerStats_while fuel' hasMore (Some (ListedCustomer.id c)) allCustomers
          | None =>
              throw (TypeError "Cannot read properties of undefined (reading 'id')")
          end
        else getCustomerStats_while fuel' hasMore None allCustomers
    end
  else ret allCustomers.

(** [getCustomerStats()] *)
Definition getCustomerStats (fuel : nat) : M (Ext W) CustomerStats.t :=
  let* allCustomers := getCustomerStats_while fuel true None [] in
  let* now_ms := Date_now in
  let now := now_ms / 1000 in
  let thirtyDaysAgo := now - 30 * 24 * 3600 in
  let recentCount :=
    length (List.filter (fun c => thirtyDaysAgo <=? ListedCustomer.created c) allCustomers) in
  ret {| CustomerStats.total := Z.of_nat (length allCustomers);
         CustomerStats.new := Z.of_nat recentCount |}.

(** [getActiveSubscribers()]: the [while (hasMore)] loop. *)
Fixpoint getActiveSubscribers_while (fuel : nat) (hasMore : bool)
    (startingAfter : option string) (count : Z) : M (Ext W) Z :=
  if hasMore then
    match fuel with
    | O => fun st => (OutOfFuel, st)
    | S fuel' =>
        let* page := callX (subscriptions_list "active" 100 startingAfter) in
        let count := count + Z.of_nat (length (data page)) in
        let hasMore := has_more page in
        if hasMore then
          match last (data page) with
          | Some s =>
              getActiveSubscribers_while fuel' hasMore (Some (Subscription.id s)) count
          | None =>
              throw (TypeError "Cannot read properties of undefined (reading 'id')")
          end
        else getActiveSubscribers_while fuel' hasMore None count
    end
  else ret count.

(** [getActiveSubscribers()] *)
Definition getActiveSubscribers (fuel : nat) : M (Ext W) Z :=
  getActiveSubscribers_while fuel true None 0.

(** [createExpressAccount()] *)
Definition createExpressAccount : M (Ext W) Account.t :=
  try_catch
    (let* account :=
       callX (accounts_create
                {| ac_type := "express";
                   ac_card_payments_requested := true;
                   ac_transfers_requested := true;
                   ac_country := "FR" |}) in
     do logger LOG ("Compte Stripe Connect Express créé : " +:+ Account.id account) ;;
     ret account)
    (fun err =>
       do logger ERROR "Erreur lors de la création du compte Express" ;;
       throw (BadRequestException "Impossible de créer le compte Express Stripe")).

(** [a || b] on strings that may be undefined. *)
Definition or_else (a : option string) (b : string) : string :=
  match a with
  | Some s => if String.eqb s "" then b else s
  | None => b
  end.

(** [createAccountLink(stripeAccountId)] *)
Definition createAccountLink (stripeAccountId : string) : M (Ext W) string :=
  try_catch
    (let origin := or_else (configService "FRONTEND_URL") "http://localhost:3000" in
     let* accountLink :=
       callX (accountLinks_create
                {| al_account := stripeAccountId;
                   al_refresh_url := origin +:+ "/reauth";
                   al_return_url := origin +:+ "/office/billing-settings";
                   al_type := "account_onboarding" |}) in
     ret (AccountLink.url accountLink))
    (fun err =>
       do logger ERROR ("Impossible de générer le lien d'onboarding pour "
                        +:+ stripeAccountId) ;;
       throw (BadRequestException "Erreur lors de la génération du lien Connect")).

End StripeServiceX.

(** *** The payment pages (Next.js API routes) *)

Module Next.
(** What the pages read of the request: the method, the parsed body and the
    [origin] header, each possibly undefined. *)
Record ApiRequest : Type := {
  method : option string;
  body : option Json;
  origin : option string
}.
End Next.

(** [!!v] for a value that may be undefined. *)
Definition truthy (v : option Json) : bool :=
  match v with
  | None | Some JNull => false
  | Some (JBool b) => b
  | Some (JNum q) => negb (Qeq_bool q 0)
  | Some (JStr s) => negb (String.eqb s "")
  | Some (JArr _) | Some (JObj _) => true
  end.

Fixpoint own_property (name : string) (fields : list (string * Json)) : option Json :=
  match fields with
  | [] => None
  | (k, v) :: fields' => if String.eqb k name then Some v else own_property name fields'
  end.

(** [v.name] for the names read here, which only an object can have. *)
Definition property (v : Json) (name : string) : option Json :=
  match v with
  | JObj fields => own_property name fields
  | _ => None
  end.

(** [`${v}`] for a string that may be undefined. *)
Definition interpolate (v : option string) : string := default "undefined" v.

Definition json_of_string (s : option string) : Json :=
  match s with
  | Some s => JStr s
  | None => JNull
  end.

Section Pages.

Context {W : Type}.
Variable stripe : StripeClientX W.

Let callX {R : Type} : StripeCallX R -> M (Ext W) R := awaitX stripe.

(** [req.method !== 'POST'] *)
Definition not_post (req : Next.ApiRequest) : bool :=
  match Next.method req with
  | Some m => negb (String.eqb m "POST")
  | None => true
  end.

(** [const { ... } = req.body]: fails on an undefined or null body. *)
Definition destructure (req : Next.ApiRequest) (first : string) : M (Ext W) Json :=
  match Next.body req with
  | None =>
      throw (TypeError ("Cannot destructure property '" +:+ first
                        +:+ "' of 'req.body' as it is undefined."))
  | Some JNull =>
      throw (TypeError ("Cannot destructure property '" +:+ first
                        +:+ "' of 'req.body' as it is null."))
  | Some b => ret b
  end.

Definition method_not_allowed : M (Ext W) unit :=
  do res_setHeader "Allow" "POST" ;;
  do res_status 405 ;;
  res_json (JObj [("error", JStr "Méthode non autorisée")]).

Definition reply (code : Z) (body : Json) : M (Ext W) unit :=
  do res_status code ;; res_json body.

(** [initiate-delivery-payment.ts] *)
Definition initiate_delivery_payment (req : Next.ApiRequest) : M (Ext W) unit :=
  if not_post req then method_not_allowed
  else
    try_catch
      (let* body := destructure req "customerId" in
       let customerId := property body "customerId" in
       let amount := property body "amount" in
       let currency := property body "currency" in
       let delivererAccountId := property body "delivererAccountId" in
       if negb (truthy customerId) || negb (truthy amount) || negb (truthy currency)
          || negb (truthy delivererAccountId)
       then
         reply 400
           (JObj [("error", JStr "customerId, amount, currency et delivererAccountId requis")])
       else
         let* pi :=
           callX (paymentIntents_create_manual
                    {| mi_amount := amount;
                       mi_currency := currency;
                       mi_customer := customerId;
                       mi_capture_method := "manual";
                       mi_payment_method_types := ["card"];
                       mi_transfer_destination := delivererAccountId;
                       mi_metadata := [("type", Some (JStr "delivery_payment"))] |}) in
         reply 200 (JObj [("clientSecret", json_of_string (ManualIntent.client_secret pi))]))
      (fun err =>
         do logger ERROR "Erreur initiate-delivery-payment :" ;;
         reply 500 (JObj [("error", JStr "Impossible de créer le PaymentIntent")])).

(** The page that initiates the payment of a service booking. *)
Definition initiate_service_payment (req : Next.ApiRequest) : M (Ext W) unit :=
  if not_post req then method_not_allowed
  else
    try_catch
      (let* body := destructure req "customerId" in
       let customerId := property body "customerId" in
       let amount := property body "amount" in
       let currency := property body "currency" in
       let providerAccountId := property body "providerAccountId" in
       let serviceId := property body "serviceId" in
       if negb (truthy customerId) || negb (truthy amount) || negb (truthy currency)
          || negb (truthy providerAccountId) || negb (truthy serviceId)
       then
         reply 400
           (JObj [("error",
                   JStr "customerId, amount, currency, providerAccountId et serviceId sont requis")])
       else
         let* paymentIntent :=
           callX (paymentIntents_create_manual
                    {| mi_amount := amount;
                       mi_currency := currency;
                       mi_customer := customerId;
                       mi_capture_method := "manual";
                       mi_payment_method_types := ["card"];
                       mi_transfer_destination := providerAccountId;
                       mi_metadata := [("type", Some (JStr "service_booking"));
                                       ("serviceId", serviceId)] |}) in
         reply 200
           (JObj [("clientSecret",
                   json_of_string (ManualIntent.client_secret paymentIntent))]))
      (fun err =>
         do logger ERROR "Erreur initiate-service-payment :" ;;
         reply 500
           (JObj [("error",
                   JStr "Impossible de créer le PaymentIntent pour la réservation")])).

(** [capture-delivery-payment.ts] *)
Definition capture_delivery_payment (req : Next.ApiRequest) : M (Ext W) unit :=
  if not_post req then method_not_allowed
  else
    try_catch
      (let* body := destructure req "paymentIntentId" in
       let paymentIntentId := property body "paymentIntentId" in
       if negb (truthy paymentIntentId)
       then reply 400 (JObj [("error", JStr "paymentIntentId requis")])
       else
         let* _ := callX (paymentIntents_capture paymentIntentId) in
         reply 200 (JObj [("success", JBool true)]))
      (fun err =>
         do logger ERROR "Erreur capture-delivery-payment :" ;;
         reply 500 (JObj [("error", JStr "Impossible de capturer le PaymentIntent")])).

(** [create-portal-session.ts] *)
Definition create_portal_session (req : Next.ApiRequest) : M (Ext W) unit :=
  if not_post req then method_not_allowed
  else
    try_catch
      (let* body := destructure req "customerId" in
       let customerId := property body "customerId" in
       if negb (truthy customerId)
       then reply 400 (JObj [("error", JStr "Le paramètre customerId est requis")])
       else
         let* session :=
           callX (billingPortal_sessions_create
                    customerId (interpolate (Next.origin req) +:+ "/account")) in
         reply 200 (JObj [("url", JStr (PortalSession.url session))]))
      (fun err =>
         do logger ERROR "Erreur create-portal-session :" ;;
         reply 500
           (JObj [("error", JStr "Impossible de créer la session du Customer Portal")])).

(** [quantity || 1] *)
Definition quantity_or_one (quantity : option Json) : Json :=
  match quantity with
  | Some q => if truthy quantity then q else JNum 1
  | None => JNum 1
  end.

(** The page that creates a Checkout session for a one-shot payment. *)
Definition create_checkout_session (req : Next.ApiRequest) : M (Ext W) unit :=
  if not_post req then method_not_allowed
  else
    try_catch
      (let* body := destructure req "priceId" in
       let priceId := property body "priceId" in
       let quantity := property body "quantity" in
       if negb (truthy priceId)
       then reply 400 (JObj [("error", JStr "Le priceId est requis.")])
       else
         let* session :=
           callX (checkout_sessions_create
                    {| cs_mode := "payment";
                       cs_payment_method_types := ["card"];
                       cs_price := priceId;
                       cs_quantity := quantity_or_one quantity;
                       cs_success_url :=
                         interpolate (Next.origin req)
                         +:+ "/success?session_id={CHECKOUT_SESSION_ID}";
                       cs_cancel_url := interpolate (Next.origin req) +:+ "/cancelled";
                       cs_customer := None |}) in
         reply 200 (JObj [("sessionId", JStr (CheckoutSession.id session))]))
      (fun err =>
         do logger ERROR "Erreur create-checkout-session :" ;;
         reply 500
           (JObj [("error", JStr "Erreur lors de la création de la session Checkout")])).

(** [create-subscription-session.ts] *)
Definition create_subscription_session (req : Next.ApiRequest) : M (Ext W) unit :=
  if not_post req then method_not_allowed
  else
    try_catch
      (let* body := destructure req "priceId" in
       let priceId := property body "priceId" in
       let customerId := property body "customerId" in
       if negb (truthy priceId)
       then reply 400 (JObj [("error", JStr "Le priceId est requis.")])
       else
         let params :=
           {| cs_mode := "subscription";
              cs_payment_method_types := ["card"];
              cs_price := priceId;
              cs_quantity := JNum 1;
              cs_success_url :=
                interpolate (Next.origin req)
                +:+ "/success?session_id={CHECKOUT_SESSION_ID}";
              cs_cancel_url := interpolate (Next.origin req) +:+ "/cancelled";
              cs_customer := None |} in
         let params :=
           if truthy customerId
           then {| cs_mode := cs_mode params;
                   cs_payment_method_types := cs_payment_method_types params;
                   cs_price := cs_price params;
                   cs_quantity := cs_quantity params;
                   cs_success_url := cs_success_url params;
                   cs_cancel_url := cs_cancel_url params;
                   cs_customer := customerId |}
           else params in
         let* session := callX (checkout_sessions_create params) in
         reply 200 (JObj [("sessionId", JStr (CheckoutSession.id session))]))
      (fun err =>
         do logger ERROR "Erreur create-subscription-session :" ;;
         reply 500
           (JObj [("error",
                   JStr "Erreur lors de la création de la session d’abonnement")])).

End Pages.

(** *** Reference notions for the continued service and the pages *)

(** The state after the platform moved to [w] and the calls [cs] were issued. *)
Definition advance {W : Type} (st : St (Ext W)) (w : W) (cs : list AnyCallX) : St (Ext W) :=
  mkSt (mkExt w (requests (world st) ++ cs) (res (world st))) (now st) (calls st) (logs st).

(** The cursor sent with the request of each of the pages [pages], the first
    one being requested with [cursor]: the id of the last item of the page
    before. *)
Fixpoint cursors {A : Type} (item_id : A -> string) (cursor : option string)
    (pages : list (ApiList A)) : list (option string) :=
  match pages with
  | [] => []
  | page :: pages' => cursor :: cursors item_id (item_id <$> last (data page)) pages'
  end.

Section Pagination.

Context {W A Acc : Type}.
Variable stripeClient : StripeClientX W.
Variable request : option string -> StripeCallX (ApiList A).
Variable item_id : A -> string.
Variable step : Acc -> list A -> Acc.

(** The scheme of the [while (hasMore)] loops of the statistics: request a
    page, fold it into the accumulator, go on after its last item. *)
Fixpoint paginate (fuel : nat) (hasMore : bool) (startingAfter : option string) (acc : Acc)
  : M (Ext W) Acc :=
  if hasMore then
    match fuel with
    | O => fun st => (OutOfFuel, st)
    | S fuel' =>
        let* page := awaitX stripeClient (request startingAfter) in
        let acc := step acc (data page) in
        if has_more page then
          match last (data page) with
          | Some x => paginate fuel' true (Some (item_id x)) acc
          | None =>
              throw (TypeError "Cannot read properties of undefined (reading 'id')")
          end
        else paginate fuel' false None acc
    end
  else ret acc.

(** From the platform state [w] and the cursor [cursor], the platform serves
    the pages [pages], each announcing more, and is then in the state [w']
    with the next page to be requested after [cursor']. *)
Inductive serves_more : W -> option string -> list (ApiList A) -> W -> option string -> Prop :=
| serves_more_nil w cursor : serves_more w cursor [] w cursor
| serves_more_cons w cursor page x w' pages w'' cursor'' :
    stripeClient _ (request cursor) w = (Resolved page, w') ->
    has_more page = true ->
    last (data page) = Some x ->
    serves_more w' (Some (item_id x)) pages w'' cursor'' ->
    serves_more w cursor (page :: pages) w'' cursor''.

End Pagination.

(** A customer created within the 30 days before [now_ms]. *)
Definition recent (now_ms : Z) (c : ListedCustomer.t) : Prop :=
  now_ms / 1000 - 2592000 <= ListedCustomer.created c.

#[global] Instance recent_dec now_ms c : Decision (recent now_ms c).
Proof. unfold recent. apply _. Defined.

(** A page answers every request exactly once, with one of the four statuses
    it knows, never throws, and asks the platform at most once; a POST whose
    body is undefined or null it answers with status 500, without asking the
    platform anything. *)
Definition responds_once {W : Type} (page : Next.ApiRequest -> M (Ext W) unit) : Prop :=
  forall (req : Next.ApiRequest) (st : St (Ext W)),
  exists (status : Z) (body : Json),
    fst (page req st) = Return tt
    /\ sent (res (world (snd (page req st)))) = sent (res (world st)) ++ [(status, body)]
    /\ status ∈ [200; 400; 405; 500]
    /\ (length (requests (world (snd (page req st))))
        <= length (requests (world st)) + 1)%nat
    /\ (Next.method req = Some "POST" ->
        Next.body req = None \/ Next.body req = Some JNull ->
        status = 500
        /\ requests (world (snd (page req st))) = requests (world st)
        /\ exists line, logs (snd (page req st)) = logs st ++ [(ERROR, line)]).

(** A page refuses a request that is not a POST: status 405 with the [Allow]
    header, nothing asked of the platform. *)
Definition refuses_other_methods {W : Type} (page : Next.ApiRequest -> M (Ext W) unit) : Prop :=
  forall (req : Next.ApiRequest) (st : St (Ext W)),
    Next.method req <> Some "POST" ->
    fst (page req st) = Return tt
    /\ requests (world (snd (page req st))) = requests (world st)
    /\ sent (res (world (snd (page req st))))
       = sent (res (world st)) ++ [(405, JObj [("error", JStr "Méthode non autorisée")])]
    /\ headers (res (world (snd (page req st))))
       = headers (res (world st)) ++ [("Allow", "POST")].

(** *** Test platforms for the continued service and the pages *)

Module FixtureX.

Definition down {R : Type} : ApiResult R :=
  Rejected (Some "api_error") "platform unavailable".

Definition unavailable : StripeClientX unit :=
  fun R c w => (down, w).

Definition start {W : Type} (w : W) (now_ms : Z) : St (Ext W) :=
  {| world := mkExt w [] fresh_response; now := now_ms; calls := []; logs := [] |}.

Definition sub (id : string) : Subscription.t := Subscription.mk id None.

(** Three active subscriptions on two pages. *)
Definition subs1 : ApiList Subscription.t :=
  {| data := [sub "sub_1"; sub "sub_2"]; has_more := true |}.
Definition subs2 : ApiList Subscription.t :=
  {| data := [sub "sub_3"]; has_more := false |}.

(** Three customers on two pages, created 40 days, exactly 30 days and one
    day before the second 1700000000. *)
Definition cust1 : ApiList ListedCustomer.t :=
  {| data := [ListedCustomer.mk "cus_1" 1696544000; ListedCustomer.mk "cus_2" 1697408000];
     has_more := true |}.
Definition cust2 : ApiList ListedCustomer.t :=
  {| data := [ListedCustomer.mk "cus_3" 1699913600]; has_more := false |}.

Definition listings : StripeClientX unit :=
  fun R c =>
    match c in StripeCallX R return unit -> ApiResult R * unit with
    | subscriptions_list _ _ cursor =>
        fun w =>
          (match cursor with
           | None => Resolved subs1
           | Some id => if String.eqb id "sub_2" then Resolved subs2 else down
           end, w)
    | customers_list _ cursor =>
        fun w =>
          (match cursor with
           | None => Resolved cust1
           | Some id => if String.eqb id "cus_2" then Resolved cust2 else down
           end, w)
    | _ => fun w => (down, w)
    end.

(** A platform whose second page of any listing fails, and whose first page
    of subscriptions is empty though it announces more. *)
Definition broken_listings : StripeClientX unit :=
  fun R c =>
    match c in StripeCallX R return unit -> ApiResult R * unit with
    | subscriptions_list _ _ _ =>
        fun w => (Resolved {| data := []; has_more := true |}, w)
    | customers_list _ cursor =>
        fun w =>
          (match cursor with
           | None => Resolved cust1
           | Some _ => Rejected (Some "rate_limit") "Too many requests"
           end, w)
    | _ => fun w => (down, w)
    end.

(** A platform that creates whatever the pages ask for. *)
Definition checkout : StripeClientX unit :=
  fun R c =>
    match c in StripeCallX R return unit -> ApiResult R * unit with
    | paymentIntents_create_manual _ =>
        fun w => (Resolved (ManualIntent.mk "pi_1" (Some "pi_1_secret")), w)
    | checkout_sessions_create _ => fun w => (Resolved (CheckoutSession.mk "cs_1"), w)
    | billingPortal_sessions_create _ _ =>
        fun w => (Resolved (PortalSession.mk "https://billing.example/session"), w)
    | _ => fun w => (down, w)
    end.

Definition post (body : Json) : Next.ApiRequest :=
  {| Next.method := Some "POST"; Next.body := Some body;
     Next.origin := Some "https://app.example" |}.

End FixtureX.

(** ** The monad *)

Ltac run :=
  unfold bind, try_catch, ret, throw, logger, Date_now, await; simpl.

Section MonadFacts.

Context {W : Type}.
Variable stripeClient : StripeClient W.

Lemma await_resolved {R} (c : StripeCall R) (st : St W) (r : R) (w' : W) :
  stripeClient R c (world st) = (Resolved r, w') ->
  await stripeClient c st
  = (Return r, mkSt w' (now st) (calls st ++ [issued c]) (logs st)).
Proof. intros H. unfold await. rewrite H. reflexivity. Qed.

Lemma await_rejected {R} (c : StripeCall R) (st : St W) code msg (w' : W) :
  stripeClient R c (world st) = (Rejected code msg, w') ->
  await stripeClient c st
  = (Throw (StripeError code msg), mkSt w' (now st) (calls st ++ [issued c]) (logs st)).
Proof. intros H. unfold await. rewrite H. reflexivity. Qed.

End MonadFacts.

(** ** Revenue *)

Lemma fold_add_charge (charges : list Charge.t) (acc : Z) :
  fold_left add_charge charges acc = acc + revenue_cents charges.
Proof.
  revert acc. induction charges as [|c charges IH]; intros acc.
  - unfold revenue_cents. simpl. lia.
  - simpl. rewrite IH. unfold revenue_cents, add_charge.
    rewrite filter_cons.
    destruct (decide (counts_as_revenue c)) as [[Hp Hr]|Hn].
    + rewrite Hp, Hr. simpl. symmetry. apply Z.add_assoc.
    + destruct (Charge.paid c) eqn:Hp, (Charge.refunded c) eqn:Hr; simpl;
        try reflexivity.
      exfalso. apply Hn. split; assumption.
Qed.

Lemma revenue_cents_app (l1 l2 : list Charge.t) :
  revenue_cents (l1 ++ l2) = revenue_cents l1 + revenue_cents l2.
Proof.
  unfold revenue_cents. rewrite filter_app, fmap_app.
  unfold sumZ. rewrite foldr_app.
  generalize ((λ c, default 0 (Charge.amount c)) <$> filter counts_as_revenue l1).
  intros l. induction l as [|x l IH]; simpl; lia.
Qed.

Section Revenue.

Context {W : Type}.
Variable stripeClient : StripeClient W.

Lemma getTotalRevenue_while_pages (startDate endDate : Z) (pages : list (ApiList Charge.t)) :
  forall (fuel : nat) (cursor : option string) (acc : Z) (st : St W) (w' : W),
    serves_pages stripeClient startDate endDate (world st) cursor pages w' ->
    (length pages <= fuel)%nat ->
    getTotalRevenue_while stripeClient fuel startDate endDate true cursor acc st
    = (Return (acc + revenue_cents (concat (data <$> pages))),
       mkSt w' (now st)
            (calls st
             ++ ((fun after =>
                    issued (charges_list {| cl_created := Some (startDate, endDate);
                                            cl_payment_intent := None;
                                            cl_limit := 100;
                                            cl_starting_after := after |}))
                   <$> cursors Charge.id cursor pages))
            (logs st)).
Proof.
  induction pages as [|page pages IH]; intros fuel cursor acc st w' Hs Hfuel.
  - inversion Hs.
  - destruct fuel as [|fuel]; [simpl in Hfuel; lia|].
    inversion Hs as [w0 cur0 pg w1 Hcall Hmore | w0 cur0 pg c w1 pgs w2 Hcall Hmore Hlast Hrest];
      subst.
    + simpl. unfold bind. rewrite (await_resolved _ _ _ _ _ Hcall). rewrite Hmore.
      destruct fuel; simpl; rewrite fold_add_charge, app_nil_r; reflexivity.
    + simpl. unfold bind. rewrite (await_resolved _ _ _ _ _ Hcall). rewrite Hmore, Hlast.
      simpl in Hfuel.
      rewrite (IH fuel (Some (Charge.id c)) (fold_left add_charge (data page) acc) _ w');
        [| exact Hrest | lia].
      rewrite fold_add_charge, revenue_cents_app.
      cbn [now calls logs]. rewrite <- app_assoc.
      f_equal. f_equal. symmetry. apply Z.add_assoc.
Qed.

(** C1. Whatever the window from [startDate] to [endDate], when the platform
    serves the charges created in it as a sequence of pages,
    [getTotalRevenue] asks for exactly these pages: each request names the
    window, both ends included, a page size of 100 and, from the second
    page on, the last charge of the page before. It returns the sum of the
    amounts of the paid and not refunded charges of all the pages, added up
    in cents and divided by 100 once, by the double division; the other
    charges add nothing. *)
Theorem getTotalRevenue_sums_paid_unrefunded
    (startDate endDate : Z) (pages : list (ApiList Charge.t))
    (fuel : nat) (st : St W) (w' : W) :
  serves_pages stripeClient startDate endDate (world st) None pages w' ->
  (length pages <= fuel)%nat ->
  getTotalRevenue stripeClient fuel startDate endDate st
  = (Return (number_of_Z (revenue_cents (concat (data <$> pages))) / 100)%float,
     mkSt w' (now st)
          (calls st
           ++ ((fun after =>
                  issued (charges_list {| cl_created := Some (startDate, endDate);
                                          cl_payment_intent := None;
                                          cl_limit := 100;
                                          cl_starting_after := after |}))
                 <$> cursors Charge.id None pages))
          (logs st)).
Proof.
  intros Hs Hfuel. unfold getTotalRevenue, bind.
  rewrite (getTotalRevenue_while_pages startDate endDate pages fuel None 0 st w' Hs Hfuel).
  reflexivity.
Qed.

End Revenue.

Lemma getTotalRevenue_sums_paid_unrefunded_witness :
  serves_pages Fixture.two_pages 1700000000 1702592000 tt None
               [Fixture.page1; Fixture.page2] tt
  /\ getTotalRevenue Fixture.two_pages 5 1700000000 1702592000 (Fixture.start tt 0)
     = (Return 20%float,
        mkSt tt 0
             [issued (charges_list {| cl_created := Some (1700000000, 1702592000);
                                      cl_payment_intent := None;
                                      cl_limit := 100;
                                      cl_starting_after := None |});
              issued (charges_list {| cl_created := Some (1700000000, 1702592000);
                                      cl_payment_intent := None;
                                      cl_limit := 100;
                                      cl_starting_after := Some "ch_2" |})]
             []).
Proof.
  assert (Hs : serves_pages Fixture.two_pages 1700000000 1702592000 tt None
                            [Fixture.page1; Fixture.page2] tt).
  { eapply serves_next_page; [reflexivity | reflexivity | reflexivity |].
    apply serves_last_page; reflexivity. }
  split; [exact Hs|].
  exact (getTotalRevenue_sums_paid_unrefunded Fixture.two_pages 1700000000 1702592000
           [Fixture.page1; Fixture.page2] 5 (Fixture.start tt 0) tt Hs
           ltac:(simpl; lia)).
Defined.

(** An empty page that announces more has no last charge to continue from:
    the loop stops on a [TypeError]. *)
Lemma getTotalRevenue_empty_page_with_more :
  fst (getTotalRevenue
         (fun R c =>
            match c in StripeCall R return unit -> ApiResult R * unit with
            | charges_list _ => fun w => (Resolved {| data := []; has_more := true |}, w)
            | _ => fun w => (Fixture.down, w)
            end) 3 0 10 (Fixture.start tt 0))
  = Throw (TypeError "Cannot read properties of undefined (reading 'id')").
Proof. reflexivity. Qed.

(** ** Subscriptions *)

Section Subscriptions.

Context {W : Type}.
Variable stripeClient : StripeClient W.

(** C5. [createSubscription] sends a trial end exactly when a start date is
    given that lies strictly after the current time, and the trial end is
    then the floor of the date in Unix seconds; any other start date leaves
    the request without a trial end and is no error: the outcome is the
    platform's answer to the request. *)
Theorem createSubscription_trial_end
    (customerId priceId : string) (startDate : option Date) (st : St W) :
  exists trial_end : option Z,
    let request :=
      subscriptions_create
        {| sc_customer := customerId; sc_items := [priceId]; sc_trial_end := trial_end |} in
    let run := createSubscription stripeClient customerId priceId startDate st in
    calls (snd run) = calls st ++ [issued request]
    /\ (forall unixTs : Z,
          trial_end = Some unixTs <->
          exists d t, startDate = Some d /\ getTime d = Some t /\ now st < t
                      /\ 1000 * unixTs <= t < 1000 * unixTs + 1000)
    /\ match fst (stripeClient _ request (world st)) with
       | Resolved subscription => fst run = Return subscription
       | Rejected _ _ =>
           fst run = Throw (BadRequestException "Impossible de créer l’abonnement Stripe")
       end.
Proof.
  assert (Hfloor : forall t u, u = t / 1000 <-> 1000 * u <= t < 1000 * u + 1000).
  { intros t u. split; [intros ->; pose proof (Z.mod_pos_bound t 1000);
                        pose proof (Z.div_mod t 1000); lia|].
    intros H. apply (Z.div_unique t 1000 u (t - 1000 * u)); lia. }
  destruct startDate as [[[t|]]|]; cbn -[Z.div Z.mul].
  - unfold createSubscription. run. destruct (now st <? t) eqn:Hlt.
    + exists (Some (t / 1000)). cbn -[Z.div Z.mul]. unfold bind, await; cbn -[Z.div Z.mul].
      destruct (stripeClient _ _ _) as [[sub|code msg] w'] eqn:Hc; cbn -[Z.div Z.mul].
      all: split; [reflexivity|]; split; [|reflexivity].
      all: intros u; split.
      all: try (intros [= <-]; exists (mkDate (Some t)), t;
                repeat split; try apply Hfloor; auto; apply Z.ltb_lt; exact Hlt).
      all: intros (d & t' & [= <-] & [= <-] & _ & Hu); f_equal; symmetry;
        apply Hfloor; exact Hu.
    + exists None. cbn -[Z.div Z.mul]. unfold bind, await; cbn -[Z.div Z.mul].
      destruct (stripeClient _ _ _) as [[sub|code msg] w'] eqn:Hc; cbn -[Z.div Z.mul].
      all: split; [reflexivity|]; split; [|reflexivity].
      all: intros u; split; [discriminate|].
      all: intros (d & t' & [= <-] & [= <-] & Hn & _); apply Z.ltb_ge in Hlt; lia.
  - exists None. unfold createSubscription. run.
    destruct (stripeClient _ _ _) as [[sub|code msg] w'] eqn:Hc; cbn.
    all: split; [reflexivity|]; split; [|reflexivity].
    all: intros u; split; [discriminate|].
    all: intros (d & t' & [= <-] & Hd & _); discriminate.
  - exists None. unfold createSubscription. run.
    destruct (stripeClient _ _ _) as [[sub|code msg] w'] eqn:Hc; cbn.
    all: split; [reflexivity|]; split; [|reflexivity].
    all: intros u; split; [discriminate|].
    all: intros (d & t' & Hd & _); discriminate.
Qed.

End Subscriptions.

(** ** Connected accounts *)

Lemma prefix_append (sub s : string) :
  String.prefix sub s = true <-> exists post, s = sub +:+ post.
Proof.
  revert s. induction sub as [|a sub IH]; intros s.
  - split; [intros _; exists s; reflexivity | intros _; destruct s; reflexivity].
  - destruct s as [|b s]; simpl.
    + split; [discriminate | intros [post H]; discriminate].
    + destruct (ascii_dec a b) as [->|Hne].
      * rewrite IH. split; intros [post H]; exists post; [rewrite H; reflexivity|].
        injection H as H. exact H.
      * split; [discriminate | intros [post H]; injection H as Hab _; congruence].
Qed.

(** [includes] decides the presence of a substring. *)
Lemma includes_substring (s sub : string) :
  includes s sub = true <-> exists pre post, s = pre +:+ sub +:+ post.
Proof.
  induction s as [|a s IH]; cbn [includes].
  - rewrite orb_false_r, prefix_append. split.
    + intros [post H]. exists EmptyString, post. exact H.
    + intros ([|b pre] & post & H); [exists post; exact H | discriminate].
  - rewrite orb_true_iff, IH, prefix_append. split.
    + intros [[post H] | (pre & post & H)].
      * exists EmptyString, post. exact H.
      * exists (String a pre), post. simpl. rewrite H. reflexivity.
    + intros ([|b pre] & post & H).
      * left. exists post. exact H.
      * right. injection H as _ H. exists pre, post. exact H.
Qed.

Section ConnectedAccounts.

Context {W : Type}.
Variable stripeClient : StripeClient W.

(** C6. [getStripeAccountStatus] always returns a status.  When the retrieval
    fails the three flags are false; otherwise [isValid] tells whether the
    details are submitted, [isEnabled] whether charges and payouts are both
    enabled, and [needsIdCard] whether some currently due requirement contains
    [verification.document]. *)
Theorem getStripeAccountStatus_never_throws (stripeAccountId : string) (st : St W) :
  exists status : AccountStatus,
    fst (getStripeAccountStatus stripeClient stripeAccountId st) = Return status
    /\ match fst (stripeClient _ (accounts_retrieve stripeAccountId) (world st)) with
       | Rejected _ _ =>
           status = {| isValid := false; isEnabled := false; needsIdCard := false |}
       | Resolved account =>
           (isValid status = true <-> Account.details_submitted account = true)
           /\ (isEnabled status = true <->
               Account.charges_enabled account = true
               /\ Account.payouts_enabled account = true)
           /\ (needsIdCard status = true <->
               exists r due req pre post,
                 Account.requirements account = Some r
                 /\ Account.currently_due r = Some due
                 /\ req ∈ due
                 /\ req = pre +:+ "verification.document" +:+ post)
       end.
Proof.
  unfold getStripeAccountStatus. run.
  destruct (stripeClient _ _ _) as [[account|code msg] w'] eqn:Hc; simpl.
  - eexists. split; [reflexivity|]. simpl. split; [reflexivity|].
    split; [apply andb_true_iff|].
    destruct (Account.requirements account) as [[[due|]]|]; simpl.
    + rewrite existsb_exists. split.
      * intros (req & Hin & Hinc). apply includes_substring in Hinc as (pre & post & Heq).
        exists (Account.mkRequirements (Some due)), due, req, pre, post.
        repeat split; [apply list_elem_of_In; exact Hin | exact Heq].
      * intros (r & due' & req & pre & post & [= <-] & [= <-] & Hin & Heq).
        exists req. split; [apply list_elem_of_In; exact Hin|].
        apply includes_substring. exists pre, post. exact Heq.
    + split; [discriminate|].
      intros (r & due' & req & pre & post & [= <-] & Hd & _). discriminate.
    + split; [discriminate|].
      intros (r & due' & req & pre & post & Hr & _). discriminate.
  - eexists. split; reflexivity.
Qed.


End ConnectedAccounts.



(** ** Webhook *)

Section Webhook.

Context {W : Type}.
Variable stripeClient : StripeClient W.
Variable configService : string -> option string.

(** C8. [handleWebhook] hands the raw body, the signature header and the
    configured secret to the SDK's verification and does nothing else with
    the platform.  When the verification fails the route throws a
    [BadRequestException], a client error, and writes no log line, whatever
    the payload says; when it yields an event whose type has no case, the
    route answers [{received: true}] and only logs that the event is not
    handled. *)
Theorem handleWebhook_verifies_then_dispatches (req : Request) (st : St W) :
  let verification :=
    webhooks_constructEvent (rawBody req) (stripe_signature req)
                            (configService "STRIPE_WEBHOOK_SECRET") in
  let run := handleWebhook stripeClient configService req st in
  calls (snd run) = calls st ++ [issued verification]
  /\ match fst (stripeClient _ verification (world st)) with
     | Rejected _ msg =>
         exists e,
           fst run = Throw e
           /\ e = BadRequestException ("Signature invalide : " +:+ msg)
           /\ (exists status, getStatus e = Some status /\ 400 <= status < 500)
           /\ logs (snd run) = logs st
     | Resolved event =>
         fst run = Return {| received := true |}
         /\ (Event.type event ∉ handled_event_types ->
             logs (snd run)
             = logs st ++ [(LOG, "Événement non géré : " +:+ Event.type event)])
     end.
Proof.
  unfold handleWebhook. run.
  destruct (stripeClient _ _ _) as [[event|code msg] w'] eqn:Hc; simpl.
  - unfold handled_event_types.
    destruct (String.eqb (Event.type event) "invoice.payment_succeeded") eqn:H1;
      [|destruct (String.eqb (Event.type event) "payment_intent.succeeded") eqn:H2;
        [|destruct (String.eqb (Event.type event) "charge.refunded") eqn:H3]];
      simpl; (split; [reflexivity|]); (split; [reflexivity|]); intros Hnot;
      try reflexivity; exfalso; apply Hnot;
      match goal with H : String.eqb _ _ = true |- _ => apply String.eqb_eq in H; rewrite H end;
      set_solver.
  - split; [reflexivity|]. eexists. split; [reflexivity|].
    split; [reflexivity|]. simpl. split; [|reflexivity].
    exists 400. split; [reflexivity | lia].
Qed.

End Webhook.

(** ** Prices *)

Lemma Qfloor_half_nearest (q : Q) :
  (q - (1 # 2) < inject_Z (Qfloor (q + (1 # 2)))
   /\ inject_Z (Qfloor (q + (1 # 2))) <= q + (1 # 2))%Q.
Proof.
  split.
  - pose proof (Qlt_floor (q + (1 # 2))) as H.
    rewrite inject_Z_plus in H. simpl inject_Z in H.
    apply (Qplus_lt_l _ _ 1). ring_simplify.
    eapply Qle_lt_trans; [|eapply Qlt_le_trans; [exact H|]].
    + ring_simplify. apply Qle_refl.
    + ring_simplify. apply Qle_refl.
  - apply Qfloor_le.
Qed.

(** [Math.round] of a finite double is the double of the nearest integer,
    halves going up, zero keeping the sign of what was rounded; [NaN] and the
    infinities are their own roundings. *)
Lemma Math_round_nearest (x : PrimFloat.float) :
  match real_value x with
  | Some q =>
      exists n : Z,
        (q - (1 # 2) < inject_Z n /\ inject_Z n <= q + (1 # 2))%Q
        /\ (Math_round x = number_of_Z n \/ (n = 0 /\ Math_round x = PrimFloat.neg_zero))
  | None => Math_round x = x
  end.
Proof.
  unfold Math_round. destruct (real_value x) as [q|]; [|reflexivity].
  exists (Qfloor (q + (1 # 2))). split; [apply Qfloor_half_nearest|].
  cbn zeta. destruct (Qfloor (q + (1 # 2)) =? 0) eqn:Hz; cbn [andb]; [|left; reflexivity].
  destruct (PrimFloat.get_sign x); [|left; reflexivity].
  right. split; [apply Z.eqb_eq; exact Hz | reflexivity].
Qed.

Section Prices.

Context {W : Type}.
Variable stripeClient : StripeClient W.

(** C10. [createPriceForPlan] throws its validation error, before anything
    is asked of the platform, when the name is empty or the price is zero
    (or no number at all).  Otherwise, once the product is created, it asks
    for a monthly price in euros for that product whose unit amount is the
    double product of the price by 100, rounded to the nearest integer with
    halves going up (an infinite product is passed as it is), and returns
    the price the platform creates. *)
Theorem createPriceForPlan_validates
    (planName : string) (planPrice : PrimFloat.float) (st : St W) :
  (planName = "" \/ PrimFloat.is_zero planPrice = true \/ PrimFloat.is_nan planPrice = true ->
   createPriceForPlan stripeClient planName planPrice st
   = (Throw (BadRequestException "Le plan doit avoir un nom et un prix valides."), st))
  /\ (planName <> "" ->
      PrimFloat.is_zero planPrice = false -> PrimFloat.is_nan planPrice = false ->
      forall product w1,
        stripeClient _ (products_create planName) (world st) = (Resolved product, w1) ->
        exists unit_amount : PrimFloat.float,
          let request :=
            prices_create {| prc_unit_amount := unit_amount;
                             prc_currency := "eur";
                             prc_recurring_interval := "month";
                             prc_product := Product.id product |} in
          let run := createPriceForPlan stripeClient planName planPrice st in
          match real_value (PrimFloat.mul planPrice 100) with
          | Some q =>
              exists n : Z,
                (q - (1 # 2) < inject_Z n /\ inject_Z n <= q + (1 # 2))%Q
                /\ (unit_amount = number_of_Z n
                    \/ (n = 0 /\ unit_amount = PrimFloat.neg_zero))
          | None => unit_amount = PrimFloat.mul planPrice 100
          end
          /\ calls (snd run)
             = calls st ++ [issued (products_create planName); issued request]
          /\ forall price w2,
              stripeClient _ request w1 = (Resolved price, w2) ->
              fst run = Return price).
Proof.
  unfold createPriceForPlan, falsy_number. split.
  - intros [-> | [Hz | Hn]]; [reflexivity | |].
    + rewrite Hz, !orb_true_r. reflexivity.
    + rewrite Hn, orb_true_r. reflexivity.
  - intros Hname Hzero Hnan product w1 Hproduct.
    destruct (String.eqb planName "") eqn:He; [apply String.eqb_eq in He; contradiction|].
    rewrite Hzero, Hnan.
    exists (Math_round (PrimFloat.mul planPrice 100)). cbn zeta.
    split; [apply Math_round_nearest|].
    cbn [orb]. unfold bind, try_catch, ret, throw, logger.
    rewrite (await_resolved _ _ _ _ _ Hproduct).
    unfold await; cbn [world calls now logs].
    destruct (stripeClient _ (prices_create _) w1) as [[price|code msg] w2] eqn:Hc;
      cbn [fst snd calls]; rewrite <- app_assoc; (split; [reflexivity|]);
      intros price' w2' [= <- <-]; reflexivity.
Qed.

End Prices.

Lemma createPriceForPlan_validates_witness :
  createPriceForPlan Fixture.catalog "Premium" 0 (Fixture.start tt 0)
  = (Throw (BadRequestException "Le plan doit avoir un nom et un prix valides."),
     Fixture.start tt 0)
  /\ exists unit_amount : PrimFloat.float,
      match real_value (PrimFloat.mul (PrimFloat.div 4345 1000) 100) with
      | Some q =>
          exists n : Z,
            (q - (1 # 2) < inject_Z n /\ inject_Z n <= q + (1 # 2))%Q
            /\ (unit_amount = number_of_Z n
                \/ (n = 0 /\ unit_amount = PrimFloat.neg_zero))
      | None => unit_amount = PrimFloat.mul (PrimFloat.div 4345 1000) 100
      end
      /\ calls (snd (createPriceForPlan Fixture.catalog "Premium" (PrimFloat.div 4345 1000)
                       (Fixture.start tt 0)))
         = [issued (products_create "Premium");
            issued (prices_create {| prc_unit_amount := unit_amount;
                                     prc_currency := "eur";
                                     prc_recurring_interval := "month";
                                     prc_product := "prod_1" |})]
      /\ forall price w2,
          Fixture.catalog _ (prices_create {| prc_unit_amount := unit_amount;
                                              prc_currency := "eur";
                                              prc_recurring_interval := "month";
                                              prc_product := "prod_1" |}) tt
          = (Resolved price, w2) ->
          fst (createPriceForPlan Fixture.catalog "Premium" (PrimFloat.div 4345 1000)
                 (Fixture.start tt 0))
          = Return price.
Proof.
  split.
  - apply (proj1 (createPriceForPlan_validates Fixture.catalog "Premium" 0
                      (Fixture.start tt 0))).
    right. left. reflexivity.
  - refine (proj2 (createPriceForPlan_validates Fixture.catalog "Premium"
                     (PrimFloat.div 4345 1000) (Fixture.start tt 0))
                  _ _ _ (Product.mk "prod_1") tt _).
    + discriminate.
    + reflexivity.
    + reflexivity.
    + reflexivity.
Defined.

(** The rounding is that of the double product: 4.345 times 100 is the
    double 434.5 and goes up to 435, 9.995 times 100 is a double below 999.5
    and goes down to 999, and a price of 0.001 gives a unit amount of 0. *)
Example createPriceForPlan_rounds_the_double_product :
  calls (snd (createPriceForPlan Fixture.catalog "Premium" (PrimFloat.div 4345 1000)
                (Fixture.start tt 0)))
  = [issued (products_create "Premium");
     issued (prices_create {| prc_unit_amount := 435; prc_currency := "eur";
                              prc_recurring_interval := "month";
                              prc_product := "prod_1" |})]
  /\ calls (snd (createPriceForPlan Fixture.catalog "Premium" (PrimFloat.div 9995 1000)
                   (Fixture.start tt 0)))
     = [issued (products_create "Premium");
        issued (prices_create {| prc_unit_amount := 999; prc_currency := "eur";
                                 prc_recurring_interval := "month";
                                 prc_product := "prod_1" |})]
  /\ calls (snd (createPriceForPlan Fixture.catalog "Premium" (PrimFloat.div 1 1000)
                   (Fixture.start tt 0)))
     = [issued (products_create "Premium");
        issued (prices_create {| prc_unit_amount := 0; prc_currency := "eur";
                                 prc_recurring_interval := "month";
                                 prc_product := "prod_1" |})].
Proof. repeat split; vm_compute; reflexivity. Qed.

(** ** Cards and one-shot charges *)

Lemma code_is_declined (code : option string) (msg : string) :
  code_is (StripeError code msg) "authentication_required"
  || code_is (StripeError code msg) "card_declined" = true
  <-> declined code.
Proof.
  unfold code_is, declined. simpl. destruct code as [c|]; simpl.
  - rewrite orb_true_iff, !String.eqb_eq. split; intros [H|H]; [left|right|left|right];
      congruence.
  - split; [discriminate | intros [H|H]; discriminate].
Qed.

Lemma declined_is_not_charge_failed (msg : string) :
  BadRequestException ("Paiement échoué : " +:+ msg) <> charge_failed.
Proof. unfold charge_failed. simpl. discriminate. Qed.

Section Cards.

Context {W : Type}.
Variable stripeClient : StripeClient W.

(** A failure of the listing is reported as a failed attachment. *)
Lemma attachPaymentMethod_listing_fails customerId paymentMethodId (st : St W) code msg w' :
  stripeClient _ (card_list_request customerId 100) (world st) = (Rejected code msg, w') ->
  fst (attachPaymentMethod stripeClient customerId paymentMethodId st) = Throw attach_failed.
Proof.
  intros H. unfold attachPaymentMethod, bind, try_catch.
  unfold card_list_request in H. rewrite (await_rejected _ _ _ _ _ _ H). reflexivity.
Qed.

(** A card that is not listed is attached and made the default. *)
Lemma attachPaymentMethod_fresh customerId paymentMethodId (st : St W) page w1 pm w2 cus w3 :
  stripeClient _ (card_list_request customerId 100) (world st) = (Resolved page, w1) ->
  (forall x, x ∈ data page -> PaymentMethod.id x <> paymentMethodId) ->
  stripeClient _ (paymentMethods_attach paymentMethodId customerId) w1 = (Resolved pm, w2) ->
  stripeClient _ (customers_update customerId paymentMethodId) w2 = (Resolved cus, w3) ->
  attachPaymentMethod stripeClient customerId paymentMethodId st
  = (Return tt,
     mkSt w3 (now st)
          (calls st ++ [issued (card_list_request customerId 100);
                        issued (paymentMethods_attach paymentMethodId customerId);
                        issued (customers_update customerId paymentMethodId)])
          (logs st)).
Proof.
  intros Hlist Hfresh Hattach Hupdate.
  unfold attachPaymentMethod, bind, try_catch. unfold card_list_request in Hlist.
  rewrite (await_resolved _ _ _ _ _ Hlist).
  destruct (existsb _ (data page)) eqn:Hex.
  - apply existsb_exists in Hex as (x & Hin & Heq). apply String.eqb_eq in Heq.
    exfalso. apply (Hfresh x); [apply list_elem_of_In; exact Hin | exact Heq].
  - unfold await at 1. cbn [world now calls logs]. rewrite Hattach.
    unfold await at 1. cbn [world now calls logs]. rewrite Hupdate.
    unfold ret. rewrite <- !app_assoc. reflexivity.
Qed.

(** C3. When the listing of the customer's cards contains the instrument,
    [attachPaymentMethod] issues no attach call; the conflict it raises is
    caught by its own handler, and the caller gets the exception of a failed
    attachment, the one a failure of the platform produces. *)
Theorem attachPaymentMethod_already_attached
    (customerId paymentMethodId : string) (st : St W) (page : ApiList PaymentMethod.t) (w' : W) :
  stripeClient _ (card_list_request customerId 100) (world st) = (Resolved page, w') ->
  (exists pm, pm ∈ data page /\ PaymentMethod.id pm = paymentMethodId) ->
  let run := attachPaymentMethod stripeClient customerId paymentMethodId st in
  fst run = Throw attach_failed
  /\ calls (snd run) = calls st ++ [issued (card_list_request customerId 100)]
  /\ world (snd run) = w'.
Proof.
  intros Hlist (pm & Hin & Hid).
  unfold attachPaymentMethod, bind, try_catch. unfold card_list_request in Hlist.
  rewrite (await_resolved _ _ _ _ _ Hlist).
  assert (Hex : existsb (fun pm => String.eqb (PaymentMethod.id pm) paymentMethodId)
                        (data page) = true).
  { apply existsb_exists. exists pm. split; [apply list_elem_of_In; exact Hin|].
    apply String.eqb_eq. exact Hid. }
  rewrite Hex. cbn. repeat split.
Qed.

(** A failure of the platform is reported as a failed payment when its code
    is one of the two declined codes, and as a failed charge otherwise. *)
Lemma chargeCustomer_listing_fails customerId amountInCents description (st : St W)
    code msg w' :
  stripeClient _ (card_list_request customerId 1) (world st) = (Rejected code msg, w') ->
  (declined code ->
   fst (chargeCustomer stripeClient customerId amountInCents description st)
   = Throw (BadRequestException ("Paiement échoué : " +:+ msg)))
  /\ (~ declined code ->
      fst (chargeCustomer stripeClient customerId amountInCents description st)
      = Throw charge_failed).
Proof.
  intros H. unfold chargeCustomer, bind, try_catch.
  unfold card_list_request in H. rewrite (await_rejected _ _ _ _ _ _ H).
  unfold logger. cbn [world now calls logs].
  pose proof (code_is_declined code msg) as Hd.
  destruct (code_is _ _ || code_is _ _); split; intros Hc; try reflexivity.
  - exfalso. apply Hc, Hd. reflexivity.
  - apply Hd in Hc. discriminate.
Qed.

(** With a card listed, the first one is charged off session; the id of the
    confirmed intent is returned, a declined payment is reported as such. *)
Lemma chargeCustomer_first_card customerId amountInCents description (st : St W)
    pm0 pms more w1 :
  stripeClient _ (card_list_request customerId 1) (world st)
  = (Resolved {| data := pm0 :: pms; has_more := more |}, w1) ->
  let request := charge_request customerId amountInCents description (PaymentMethod.id pm0) in
  let run := chargeCustomer stripeClient customerId amountInCents description st in
  calls (snd run) = calls st ++ [issued (card_list_request customerId 1); issued request]
  /\ match fst (stripeClient _ request w1) with
     | Resolved intent => fst run = Return {| paymentIntentId := PaymentIntent.id intent |}
     | Rejected code msg =>
         (declined code ->
          fst run = Throw (BadRequestException ("Paiement échoué : " +:+ msg)))
         /\ (~ declined code -> fst run = Throw charge_failed)
     end.
Proof.
  intros H. unfold chargeCustomer, bind, try_catch.
  unfold card_list_request in H. rewrite (await_resolved _ _ _ _ _ H).
  cbn [data]. unfold await. cbn [world now calls logs]. unfold charge_request.
  destruct (stripeClient _ (paymentIntents_create _) w1) as [[intent|code msg] w2] eqn:Hc.
  - cbn. rewrite <- app_assoc. split; reflexivity.
  - unfold logger. cbn [world now calls logs fst snd].
    pose proof (code_is_declined code msg) as Hd.
    destruct (code_is _ _ || code_is _ _); cbn; rewrite <- app_assoc;
      (split; [reflexivity|]); split; intros Hcode; try reflexivity.
    + exfalso. apply Hcode, Hd. reflexivity.
    + apply Hd in Hcode. discriminate.
Qed.

(** C2. When the customer has no card, [chargeCustomer] creates no payment
    intent; the validation error it raises is caught by its own handler, and
    the caller gets the exception of a failed charge, the one an unclassified
    failure of the platform produces. *)
Theorem chargeCustomer_no_instrument
    (customerId : string) (amountInCents : Z) (description : string) (st : St W)
    (page : ApiList PaymentMethod.t) (w' : W) :
  stripeClient _ (card_list_request customerId 1) (world st) = (Resolved page, w') ->
  data page = [] ->
  let run := chargeCustomer stripeClient customerId amountInCents description st in
  fst run = Throw charge_failed
  /\ calls (snd run) = calls st ++ [issued (card_list_request customerId 1)].
Proof.
  intros Hlist Hempty.
  unfold chargeCustomer, bind, try_catch. unfold card_list_request in Hlist.
  rewrite (await_resolved _ _ _ _ _ Hlist). rewrite Hempty. cbn. split; reflexivity.
Qed.

End Cards.

Lemma attachPaymentMethod_already_attached_witness :
  Fixture.wallet _ (card_list_request "cus_1" 100) [("cus_1", "pm_1")]
  = (Resolved {| data := [PaymentMethod.mk "pm_1"]; has_more := false |},
     [("cus_1", "pm_1")])
  /\ (exists pm, pm ∈ [PaymentMethod.mk "pm_1"] /\ PaymentMethod.id pm = "pm_1")
  /\ fst (attachPaymentMethod Fixture.wallet "cus_1" "pm_1"
            (Fixture.start [("cus_1", "pm_1")] 0))
     = Throw attach_failed
  /\ calls (snd (attachPaymentMethod Fixture.wallet "cus_1" "pm_1"
                   (Fixture.start [("cus_1", "pm_1")] 0)))
     = [issued (card_list_request "cus_1" 100)]
  /\ world (snd (attachPaymentMethod Fixture.wallet "cus_1" "pm_1"
                   (Fixture.start [("cus_1", "pm_1")] 0)))
     = [("cus_1", "pm_1")].
Proof.
  assert (Hin : exists pm, pm ∈ [PaymentMethod.mk "pm_1"] /\ PaymentMethod.id pm = "pm_1").
  { exists (PaymentMethod.mk "pm_1"). split; [apply list_elem_of_here | reflexivity]. }
  split; [reflexivity|]. split; [exact Hin|].
  exact (attachPaymentMethod_already_attached Fixture.wallet "cus_1" "pm_1"
           (Fixture.start [("cus_1", "pm_1")] 0)
           {| data := [PaymentMethod.mk "pm_1"]; has_more := false |}
           [("cus_1", "pm_1")] eq_refl Hin).
Defined.

(** Attaching the same card twice on a platform that keeps the cards: the
    first call attaches it, the second one fails and attaches nothing. *)
Lemma attachPaymentMethod_twice :
  let first := attachPaymentMethod Fixture.wallet "cus_1" "pm_1" (Fixture.start [] 0) in
  let second := attachPaymentMethod Fixture.wallet "cus_1" "pm_1" (snd first) in
  fst first = Return tt
  /\ world (snd first) = [("cus_1", "pm_1")]
  /\ fst second = Throw attach_failed
  /\ world (snd second) = [("cus_1", "pm_1")].
Proof. cbn. repeat split. Qed.

Lemma chargeCustomer_no_instrument_witness :
  Fixture.no_card _ (card_list_request "cus_1" 1) tt
  = (Resolved {| data := []; has_more := false |}, tt)
  /\ fst (chargeCustomer Fixture.no_card "cus_1" 1500 "Livraison" (Fixture.start tt 0))
     = Throw charge_failed
  /\ calls (snd (chargeCustomer Fixture.no_card "cus_1" 1500 "Livraison"
                   (Fixture.start tt 0)))
     = [issued (card_list_request "cus_1" 1)].
Proof.
  split; [reflexivity|].
  exact (chargeCustomer_no_instrument Fixture.no_card "cus_1" 1500 "Livraison"
           (Fixture.start tt 0) {| data := []; has_more := false |} tt eq_refl eq_refl).
Defined.

(** ** Payment statistics *)

Lemma some_refunded_Exists (charges : list Charge.t) :
  some_refunded charges = true <-> Exists refunded_charge charges.
Proof.
  unfold some_refunded. rewrite existsb_exists, Exists_exists. split.
  - intros (c & Hin & Hc). exists c. split; [apply list_elem_of_In; exact Hin|].
    apply orb_true_iff in Hc as [Hc|Hc]; [left; exact Hc | right; apply Z.ltb_lt; exact Hc].
  - intros (c & Hin & Hc). exists c. split; [apply list_elem_of_In; exact Hin|].
    apply orb_true_iff. destruct Hc as [Hc|Hc]; [left; exact Hc | right; apply Z.ltb_lt; exact Hc].
Qed.

Lemma refunded_ids_cons pi page payments pages :
  refunded_ids (pi :: payments) (page :: pages)
  = if some_refunded (data page)
    then {[ PaymentIntent.id pi ]} ∪ refunded_ids payments pages
    else refunded_ids payments pages.
Proof.
  unfold refunded_ids. cbn [zip zip_with]. rewrite filter_cons. cbn [snd].
  pose proof (some_refunded_Exists (data page)) as H.
  destruct (some_refunded (data page)); case_decide as Hd.
  - reflexivity.
  - exfalso. apply Hd, H. reflexivity.
  - apply H in Hd. discriminate.
  - reflexivity.
Qed.

Section Statistics.

Context {W : Type}.
Variable stripeClient : StripeClient W.

Lemma detect_refunded_lookups (payments : list PaymentIntent.t) :
  forall (pages : list (ApiList Charge.t)) (acc : gset string) (st : St W) (w' : W),
    serves_lookups stripeClient (world st) payments pages w' ->
    exists st',
      detect_refunded stripeClient payments acc st
      = (Return (refunded_ids payments pages ∪ acc), st')
      /\ world st' = w'.
Proof.
  induction payments as [|pi payments IH]; intros pages acc st w' Hs.
  - inversion Hs; subst. exists st. split; [|reflexivity].
    unfold refunded_ids. cbn. unfold ret. f_equal. f_equal.
    symmetry. apply (left_id_L ∅ (∪)).
  - inversion Hs as [|w0 pi0 page w1 ps pgs w2 Hcall Hrest]; subst.
    cbn [detect_refunded]. unfold bind. rewrite (await_resolved _ _ _ _ _ Hcall).
    rewrite refunded_ids_cons.
    set (st1 := mkSt w1 (now st) _ (logs st)).
    destruct (some_refunded (data page)).
    + destruct (IH pgs ({[PaymentIntent.id pi]} ∪ acc) st1 w' Hrest) as (st' & Hrun & Hw).
      exists st'. rewrite Hrun. split; [|exact Hw]. f_equal. f_equal.
      rewrite (assoc_L (∪)). f_equal. apply (comm_L (∪)).
    + destruct (IH pgs acc st1 w' Hrest) as (st' & Hrun & Hw).
      exists st'. rewrite Hrun. split; [reflexivity | exact Hw].
Qed.

End Statistics.

(** *** The object [methodStats] *)

Lemma obj_get_set_eq (o : MethodStats) k v : obj_get (obj_set o k v) k = Some v.
Proof.
  induction o as [|[k' v'] o IH]; simpl.
  - rewrite String.eqb_refl. reflexivity.
  - destruct (String.eqb k' k) eqn:He; simpl; rewrite He; [reflexivity | exact IH].
Qed.

Lemma obj_get_set_ne (o : MethodStats) k k' v :
  k <> k' -> obj_get (obj_set o k v) k' = obj_get o k'.
Proof.
  intros Hne. induction o as [|[k0 v0] o IH]; simpl.
  - destruct (String.eqb_spec k k'); [contradiction | reflexivity].
  - destruct (String.eqb_spec k0 k) as [->|Hk]; simpl.
    + destruct (String.eqb_spec k k'); [contradiction | reflexivity].
    + rewrite IH. reflexivity.
Qed.

Lemma obj_get_None (o : MethodStats) k : obj_get o k = None <-> k ∉ o.*1.
Proof.
  induction o as [|[k' v'] o IH]; simpl.
  - split; [intros _; apply not_elem_of_nil | reflexivity].
  - rewrite not_elem_of_cons. destruct (String.eqb_spec k' k) as [->|Hk].
    + split; [discriminate | intros [H _]; contradiction].
    + rewrite IH. split; [intros H; split; [congruence | exact H] | intros [_ H]; exact H].
Qed.

Lemma obj_set_keys (o : MethodStats) k v :
  (obj_set o k v).*1 = match obj_get o k with Some _ => o.*1 | None => o.*1 ++ [k] end.
Proof.
  induction o as [|[k' v'] o IH]; simpl; [reflexivity|].
  destruct (String.eqb k' k); simpl; [reflexivity|].
  change (k' :: (obj_set o k v).*1
          = match obj_get o k with
            | Some _ => k' :: o.*1
            | None => (k' :: o.*1) ++ [k]
            end).
  rewrite IH. destruct (obj_get o k); reflexivity.
Qed.

Lemma obj_get_elem_of (o : MethodStats) k v :
  NoDup o.*1 -> (k, v) ∈ o -> obj_get o k = Some v.
Proof.
  induction o as [|[k' v'] o IH]; simpl; intros Hnd Hin.
  - apply elem_of_nil in Hin. contradiction.
  - apply NoDup_cons in Hnd as [Hk' Hnd]. apply elem_of_cons in Hin as [[= <- <-]|Hin].
    + rewrite String.eqb_refl. reflexivity.
    + destruct (String.eqb_spec k' k) as [->|Hk]; [|apply IH; assumption].
      exfalso. apply Hk'. apply (list_elem_of_fmap_2 fst o (k, v)). exact Hin.
Qed.

(** *** The loop over the successful attempts *)

Lemma float_sum_snoc (l : list PrimFloat.float) (a : PrimFloat.float) :
  float_sum (l ++ [a]) = PrimFloat.add (float_sum l) a.
Proof. unfold float_sum. rewrite fold_left_app. reflexivity. Qed.

Lemma first_method_default (pi : PaymentIntent.t) :
  default "unknown" (head (PaymentIntent.payment_method_types pi)) = first_method pi.
Proof. unfold first_method. destruct (PaymentIntent.payment_method_types pi); reflexivity. Qed.

Lemma received_euros_default (pi : PaymentIntent.t) :
  PrimFloat.div (number_of_Z (default 0 (PaymentIntent.amount_received pi))) 100
  = received_euros pi.
Proof. unfold received_euros. destruct (PaymentIntent.amount_received pi); reflexivity. Qed.

Lemma paid_by_snoc m l pi :
  paid_by m (l ++ [pi]) = if decide (first_method pi = m) then paid_by m l ++ [pi] else paid_by m l.
Proof.
  unfold paid_by. rewrite filter_app, filter_cons, filter_nil.
  case_decide; [reflexivity | apply app_nil_r].
Qed.

Lemma paid_by_absent m l : m ∉ first_method <$> l -> paid_by m l = [].
Proof.
  intros H. induction l as [|p l IH]; [reflexivity|].
  rewrite fmap_cons, not_elem_of_cons in H. destruct H as [Hp Hl].
  unfold paid_by. rewrite filter_cons. case_decide; [congruence | apply IH, Hl].
Qed.

Lemma add_successful_stats o s l pi :
  stats_of o s l ->
  stats_of (add_successful (o, s) pi).1 (add_successful (o, s) pi).2 (l ++ [pi]).
Proof.
  intros (Hnd & Hs & Hget). unfold add_successful.
  rewrite first_method_default, received_euros_default.
  set (m := first_method pi). set (a := received_euros pi).
  pose proof (Hget m) as Hm.
  assert (Hpre : exists c v,
             obj_get (match obj_get o m with
                      | None => obj_set o m (0, 0%float)
                      | Some _ => o
                      end) m = Some (c, v)
             /\ c = Z.of_nat (length (paid_by m l))
             /\ v = float_sum (received_euros <$> paid_by m l)
             /\ NoDup (match obj_get o m with
                       | None => obj_set o m (0, 0%float)
                       | Some _ => o
                       end).*1
             /\ forall m', m <> m' ->
                  obj_get (match obj_get o m with
                           | None => obj_set o m (0, 0%float)
                           | Some _ => o
                           end) m' = obj_get o m').
  { destruct (obj_get o m) as [[c v]|] eqn:Hom.
    - exists c, v. destruct Hm as (_ & Hc & Hv). repeat split; assumption.
    - exists 0, 0%float. rewrite obj_get_set_eq, (paid_by_absent m l Hm).
      repeat split; try reflexivity.
      + rewrite obj_set_keys, Hom. apply NoDup_app. repeat split.
        * exact Hnd.
        * intros x Hx Hx'. apply list_elem_of_singleton in Hx'. subst x.
          apply obj_get_None in Hom. contradiction.
        * apply NoDup_singleton.
      + intros m' Hne. apply obj_get_set_ne. exact Hne. }
  destruct Hpre as (c & v & Hget1 & Hc & Hv & Hnd1 & Hother).
  set (o1 := match obj_get o m with None => obj_set o m (0, 0%float) | Some _ => o end) in *.
  rewrite Hget1. cbn [fst snd]. split; [|split].
  - rewrite obj_set_keys, Hget1. exact Hnd1.
  - rewrite fmap_app. change (received_euros <$> [pi]) with [a].
    rewrite float_sum_snoc, Hs. reflexivity.
  - intros m'. destruct (decide (m = m')) as [<-|Hne].
    + rewrite obj_get_set_eq, paid_by_snoc, decide_True by reflexivity.
      split; [|split].
      * rewrite fmap_app. apply elem_of_app. right. apply list_elem_of_singleton. reflexivity.
      * rewrite length_app. simpl. lia.
      * rewrite fmap_app. change (received_euros <$> [pi]) with [a].
        rewrite float_sum_snoc, Hv. reflexivity.
    + rewrite obj_get_set_ne, Hother by exact Hne.
      rewrite paid_by_snoc, decide_False by exact Hne.
      pose proof (Hget m') as Hm'. rewrite fmap_app.
      destruct (obj_get o m') as [[c' v']|].
      * destruct Hm' as (Hin & Hc' & Hv'). split; [|split; assumption].
        apply elem_of_app. left. exact Hin.
      * intros Hin. apply elem_of_app in Hin as [Hin|Hin]; [contradiction|].
        apply list_elem_of_singleton in Hin. apply Hne. symmetry. exact Hin.
Qed.

Lemma fold_add_successful_stats (l : list PaymentIntent.t) :
  forall pre o s,
    stats_of o s pre ->
    stats_of (fold_left add_successful l (o, s)).1 (fold_left add_successful l (o, s)).2
             (pre ++ l).
Proof.
  induction l as [|pi l IH]; intros pre o s H; cbn [fold_left].
  - rewrite app_nil_r. exact H.
  - replace (pre ++ pi :: l) with ((pre ++ [pi]) ++ l) by (rewrite <- app_assoc; reflexivity).
    pose proof (add_successful_stats o s pre pi H) as H1.
    destruct (add_successful (o, s) pi) as [o1 s1]. apply IH. exact H1.
Qed.

Lemma stats_of_nil : stats_of [] 0%float [].
Proof.
  split; [apply NoDup_nil_2|]. split; [reflexivity|]. intros m. apply not_elem_of_nil.
Qed.

Lemma entries_methods (o : MethodStats) : method <$> map entry_of o = o.*1.
Proof.
  induction o as [|[m [c v]] o IH]; [reflexivity|].
  cbn [map fmap list_fmap entry_of method fst]. f_equal. exact IH.
Qed.

Lemma size_list_to_set_le (l : list string) :
  (size (list_to_set l : gset string) <= length l)%nat.
Proof.
  induction l as [|x l IH]; [rewrite list_to_set_nil, size_empty; reflexivity|].
  rewrite list_to_set_cons, size_union_alt, size_singleton. cbn [length].
  pose proof (subseteq_size (list_to_set l ∖ {[x]}) (list_to_set l : gset string)) as H.
  assert (Hsub : list_to_set l ∖ {[x]} ⊆ (list_to_set l : gset string)).
  { intros y Hy. apply elem_of_difference in Hy as [Hy _]. exact Hy. }
  specialize (H Hsub). lia.
Qed.

Section StatisticsFacts.

Context {W : Type}.
Variable stripeClient : StripeClient W.

Lemma serves_lookups_length w payments pages w' :
  serves_lookups stripeClient w payments pages w' -> length pages = length payments.
Proof. induction 1; simpl; congruence. Qed.

(** The run of [getPaymentStats] in terms of the accumulators of its loops. *)
Lemma getPaymentStats_run (st : St W) (page : ApiList PaymentIntent.t) (w1 : W)
    (pages : list (ApiList Charge.t)) (w2 : W) :
  stripeClient _ (paymentIntents_list 100) (world st) = (Resolved page, w1) ->
  serves_lookups stripeClient w1 (data page) pages w2 ->
  let payments := data page in
  let successful := filter succeeded payments in
  exists (o : MethodStats) (s : PrimFloat.float),
    stats_of o s successful
    /\ fst (getPaymentStats stripeClient st)
       = Return
           {| successRate :=
                if (0 <? length payments)%nat
                then (number_of_Z (Z.of_nat (length successful))
                      / number_of_Z (Z.of_nat (length payments)) * 100)%float
                else 0%float;
              averageValue :=
                if (0 <? length successful)%nat
                then (s / number_of_Z (Z.of_nat (length successful)))%float
                else 0%float;
              refundRate :=
                if (0 <? length payments)%nat
                then (number_of_Z (Z.of_nat (size (refunded_ids payments pages)))
                      / number_of_Z (Z.of_nat (length payments)) * 100)%float
                else 0%float;
              byMethod := map entry_of o |}.
Proof.
  intros Hlist Hlook payments successful.
  unfold getPaymentStats, bind. rewrite (await_resolved _ _ _ _ _ Hlist).
  set (st1 := mkSt w1 (now st) _ (logs st)).
  destruct (detect_refunded_lookups stripeClient (data page) pages ∅ st1 w2 Hlook)
    as (st2 & Hrun & _).
  rewrite Hrun. rewrite (right_id_L ∅ (∪)).
  pose proof (fold_add_successful_stats successful [] [] 0%float stats_of_nil) as Hstats.
  cbn [app] in Hstats. fold payments. fold (succeeded). fold successful.
  change (filter (fun p => PaymentIntent.status p = "succeeded") payments) with successful.
  destruct (fold_left add_successful successful _) as [o s] eqn:E.
  exists o, s. split; [exact Hstats | reflexivity].
Qed.

(** C4. Over the payment attempts the platform lists (one request, of at most
    100), [getPaymentStats] returns the share of succeeded attempts and the
    share of attempts with a refund, both as the double quotient times 100,
    the mean of what the succeeded attempts received in euros (the cents of
    each divided by 100, added up in the order of the list and divided by
    their number, all on doubles), and one entry per first declared method
    type of a succeeded attempt with the number of these attempts and the sum
    of what they received; with no attempt it returns zeros and no entry,
    and with no succeeded attempt a mean of zero, where the quotients would
    be no numbers. *)
Theorem getPaymentStats_rates (st : St W) (page : ApiList PaymentIntent.t) (w1 : W)
    (pages : list (ApiList Charge.t)) (w2 : W) :
  stripeClient _ (paymentIntents_list 100) (world st) = (Resolved page, w1) ->
  serves_lookups stripeClient w1 (data page) pages w2 ->
  let payments := data page in
  let successful := filter succeeded payments in
  let total := number_of_Z (Z.of_nat (length payments)) in
  exists stats : PaymentStats,
    fst (getPaymentStats stripeClient st) = Return stats
    /\ (payments <> [] ->
        successRate stats
        = PrimFloat.mul (PrimFloat.div (number_of_Z (Z.of_nat (length successful))) total) 100
        /\ refundRate stats
           = PrimFloat.mul
               (PrimFloat.div (number_of_Z (Z.of_nat (size (refunded_ids payments pages))))
                              total)
               100)
    /\ (successful <> [] ->
        averageValue stats
        = PrimFloat.div (float_sum (received_euros <$> successful))
                        (number_of_Z (Z.of_nat (length successful))))
    /\ (successful = [] -> averageValue stats = 0%float)
    /\ NoDup (method <$> byMethod stats)
    /\ (forall m, m ∈ method <$> byMethod stats <-> m ∈ first_method <$> successful)
    /\ (forall e, e ∈ byMethod stats ->
          count e = Z.of_nat (length (paid_by (method e) successful))
          /\ value e = float_sum (received_euros <$> paid_by (method e) successful))
    /\ (payments = [] ->
        stats = {| successRate := 0; averageValue := 0; refundRate := 0; byMethod := [] |}).
Proof.
  intros Hlist Hlook payments successful total.
  destruct (getPaymentStats_run st page w1 pages w2 Hlist Hlook)
    as (o & s & (Hnd & Hs & Hget) & Hrun).
  fold payments successful in Hnd, Hs, Hget, Hrun.
  eexists. split; [exact Hrun|]. cbn [successRate averageValue refundRate byMethod].
  split; [|split; [|split; [|split; [|split; [|split]]]]].
  - intros Hne. destruct payments; [contradiction|]. split; reflexivity.
  - intros Hne. destruct successful eqn:E; [contradiction|].
    cbn [length Nat.ltb Nat.leb]. rewrite Hs. reflexivity.
  - intros ->. reflexivity.
  - rewrite entries_methods. exact Hnd.
  - intros m. rewrite entries_methods. specialize (Hget m).
    destruct (obj_get o m) as [[c v]|] eqn:Hom.
    + split; [intros _; apply Hget|]. intros _.
      destruct (decide (m ∈ o.*1)) as [Hin|Hout]; [exact Hin|].
      apply obj_get_None in Hout. congruence.
    + apply obj_get_None in Hom. split; intros H; contradiction.
  - intros e He. apply list_elem_of_In, in_map_iff in He as ([m [c v]] & <- & Hin).
    apply list_elem_of_In in Hin. cbn [entry_of method count value].
    pose proof (obj_get_elem_of o m (c, v) Hnd Hin) as Hom.
    specialize (Hget m). rewrite Hom in Hget. destruct Hget as (_ & Hc & Hv).
    split; assumption.
  - intros Hnil. assert (Hsucc : successful = []).
    { unfold successful. rewrite Hnil. reflexivity. }
    destruct o as [|[m cv] o].
    + rewrite Hnil, Hsucc. reflexivity.
    + exfalso. specialize (Hget m). cbn [obj_get] in Hget.
      rewrite String.eqb_refl in Hget. destruct cv as [c v].
      destruct Hget as (Hin & _). rewrite Hsucc in Hin. apply elem_of_nil in Hin. exact Hin.
Qed.

(** C9. The share [refundRate] counts the distinct ids of the attempts one of
    whose charges is flagged refunded or has a positive refunded amount: an
    attempt refunded in part counts like one refunded in full, and an attempt
    counts once however many of its charges are refunded. *)
Theorem getPaymentStats_refunded_attempts (st : St W) (page : ApiList PaymentIntent.t)
    (w1 : W) (pages : list (ApiList Charge.t)) (w2 : W) :
  stripeClient _ (paymentIntents_list 100) (world st) = (Resolved page, w1) ->
  serves_lookups stripeClient w1 (data page) pages w2 ->
  let payments := data page in
  let looked_up := zip payments pages in
  exists (stats : PaymentStats) (refundedIntents : gset string),
    fst (getPaymentStats stripeClient st) = Return stats
    /\ (forall id,
          id ∈ refundedIntents <->
          exists pi charges,
            (pi, charges) ∈ looked_up /\ PaymentIntent.id pi = id
            /\ exists c, c ∈ data charges
                         /\ (Charge.refunded c = true \/ 0 < Charge.amount_refunded c))
    /\ (size refundedIntents <= length payments)%nat
    /\ (NoDup (PaymentIntent.id <$> payments) ->
        size refundedIntents
        = length (filter (fun x => Exists refunded_charge (data x.2)) looked_up))
    /\ (payments <> [] ->
        refundRate stats
        = PrimFloat.mul
            (PrimFloat.div (number_of_Z (Z.of_nat (size refundedIntents)))
                           (number_of_Z (Z.of_nat (length payments))))
            100).
Proof.
  intros Hlist Hlook payments looked_up.
  destruct (getPaymentStats_run st page w1 pages w2 Hlist Hlook) as (o & s & _ & Hrun).
  fold payments in Hrun.
  pose proof (serves_lookups_length _ _ _ _ Hlook) as Hlen. fold payments in Hlen.
  eexists. exists (refunded_ids payments pages). split; [exact Hrun|].
  cbn [refundRate]. split; [|split; [|split]].
  - intros id. unfold refunded_ids. rewrite elem_of_list_to_set, list_elem_of_fmap. split.
    + intros (pi & -> & Hpi). apply list_elem_of_fmap in Hpi as ([pi' charges] & -> & Hx).
      apply list_elem_of_filter in Hx as [Hex Hin]. cbn [fst snd] in *.
      exists pi', charges. split; [exact Hin|]. split; [reflexivity|].
      apply Exists_exists in Hex as (c & Hc & Hr). exists c. split; assumption.
    + intros (pi & charges & Hin & <- & c & Hc & Hr). exists pi. split; [reflexivity|].
      apply list_elem_of_fmap. exists (pi, charges). split; [reflexivity|].
      apply list_elem_of_filter. split; [|exact Hin].
      apply Exists_exists. exists c. split; assumption.
  - unfold refunded_ids. etransitivity; [apply size_list_to_set_le|].
    rewrite !length_fmap. etransitivity; [apply length_filter|].
    unfold looked_up. rewrite length_zip. lia.
  - intros Hnd. unfold refunded_ids. rewrite size_list_to_set, !length_fmap; [reflexivity|].
    apply (sublist_NoDup _ (PaymentIntent.id <$> payments)); [exact Hnd|].
    apply fmap_sublist.
    rewrite <- (fst_zip payments pages) at 2 by lia.
    apply fmap_sublist. apply sublist_filter.
  - intros Hne. destruct payments; [contradiction|]. reflexivity.
Qed.

End StatisticsFacts.

Lemma serves_lookups_history :
  serves_lookups Fixture.history tt Fixture.attempts Fixture.lookups tt.
Proof. repeat (eapply serves_lookups_cons; [reflexivity|]). apply serves_lookups_nil. Defined.

Lemma getPaymentStats_rates_witness :
  Fixture.history _ (paymentIntents_list 100) tt
  = (Resolved {| data := Fixture.attempts; has_more := false |}, tt)
  /\ serves_lookups Fixture.history tt Fixture.attempts Fixture.lookups tt
  /\ exists stats : PaymentStats,
      fst (getPaymentStats Fixture.history (Fixture.start tt 0)) = Return stats
      /\ successRate stats = 75%float
      /\ refundRate stats = 25%float
      /\ averageValue stats = PrimFloat.div 65 3
      /\ (forall m, m ∈ method <$> byMethod stats <-> m ∈ ["card"; "sepa_debit"; "card"]).
Proof.
  split; [reflexivity|]. split; [exact serves_lookups_history|].
  destruct (getPaymentStats_rates Fixture.history (Fixture.start tt 0)
              {| data := Fixture.attempts; has_more := false |} tt Fixture.lookups tt
              eq_refl serves_lookups_history)
    as (stats & Hrun & Hrates & Havg & _ & _ & Hmethods & _).
  exists stats. split; [exact Hrun|].
  destruct (Hrates ltac:(discriminate)) as [Hsucc Hrefund].
  split; [rewrite Hsucc; vm_compute; reflexivity|].
  split; [rewrite Hrefund; vm_compute; reflexivity|].
  split; [|exact Hmethods].
  etransitivity; [apply Havg; discriminate|]. vm_compute. reflexivity.
Defined.

Lemma getPaymentStats_refunded_attempts_witness :
  Fixture.history _ (paymentIntents_list 100) tt
  = (Resolved {| data := Fixture.attempts; has_more := false |}, tt)
  /\ serves_lookups Fixture.history tt Fixture.attempts Fixture.lookups tt
  /\ exists (stats : PaymentStats) (refundedIntents : gset string),
      fst (getPaymentStats Fixture.history (Fixture.start tt 0)) = Return stats
      /\ "pi_4" ∈ refundedIntents
      /\ size refundedIntents = 1%nat
      /\ refundRate stats
         = PrimFloat.mul
             (PrimFloat.div (number_of_Z (Z.of_nat (size refundedIntents))) (number_of_Z 4))
             100.
Proof.
  split; [reflexivity|]. split; [exact serves_lookups_history|].
  destruct (getPaymentStats_refunded_attempts Fixture.history (Fixture.start tt 0)
              {| data := Fixture.attempts; has_more := false |} tt Fixture.lookups tt
              eq_refl serves_lookups_history)
    as (stats & refundedIntents & Hrun & Hmem & _ & Hsize & Hrate).
  exists stats, refundedIntents. split; [exact Hrun|]. split; [|split].
  - apply Hmem.
    exists (Fixture.attempt "pi_4" "succeeded" ["card"] 3000),
      {| data := Fixture.charges_of "pi_4"; has_more := false |}.
    split; [|split; [reflexivity|]].
    + do 3 apply list_elem_of_further. apply list_elem_of_here.
    + exists (Fixture.ch "ch_4a" true false 1500 500).
      split; [apply list_elem_of_here | right; reflexivity].
  - rewrite Hsize; [reflexivity|].
    apply (bool_decide_unpack _). vm_compute. exact I.
  - apply Hrate. discriminate.
Defined.

(** The sums and quotients are those of doubles: 10 and 20 cents received
    add up to a double above the one nearest to 30 cents in euros, and a
    quotient by the length of an empty list would be no number, which the
    tests of the lengths keep out of the statistics. *)
Example getPaymentStats_sums_doubles :
  PrimFloat.ltb (PrimFloat.div 30 100)
                (float_sum (received_euros
                              <$> [Fixture.attempt "pi_1" "succeeded" ["card"] 10;
                                   Fixture.attempt "pi_2" "succeeded" ["card"] 20]))
  = true
  /\ PrimFloat.is_nan
       (PrimFloat.div (float_sum []) (number_of_Z (Z.of_nat (@length PaymentIntent.t []))))
     = true.
Proof. split; vm_compute; reflexivity. Qed.

(** ** The statistics over whole collections *)

Lemma advance_nil {W : Type} (st : St (Ext W)) : advance st (platform (world st)) [] = st.
Proof. destruct st as [[w rs r] n c l]. unfold advance. simpl. rewrite app_nil_r. reflexivity. Qed.

Lemma advance_advance {W : Type} (st : St (Ext W)) w1 cs1 w2 cs2 :
  advance (advance st w1 cs1) w2 cs2 = advance st w2 (cs1 ++ cs2).
Proof. unfold advance. simpl. rewrite <- app_assoc. reflexivity. Qed.

Section PaginationFacts.

Context {W A Acc : Type}.
Variable stripeClient : StripeClientX W.
Variable request : option string -> StripeCallX (ApiList A).
Variable item_id : A -> string.
Variable step : Acc -> list A -> Acc.

Lemma awaitX_resolved {R} (c : StripeCallX R) (st : St (Ext W)) (r : R) (w' : W) :
  stripeClient R c (platform (world st)) = (Resolved r, w') ->
  awaitX stripeClient c st = (Return r, advance st w' [issuedX c]).
Proof. intros H. unfold awaitX. rewrite H. reflexivity. Qed.

Lemma awaitX_rejected {R} (c : StripeCallX R) (st : St (Ext W)) code msg (w' : W) :
  stripeClient R c (platform (world st)) = (Rejected code msg, w') ->
  awaitX stripeClient c st = (Throw (StripeError code msg), advance st w' [issuedX c]).
Proof. intros H. unfold awaitX. rewrite H. reflexivity. Qed.

Lemma cursors_snoc w cursor pages w' cursor' page :
  serves_more stripeClient request item_id w cursor pages w' cursor' ->
  cursors item_id cursor (pages ++ [page]) = cursors item_id cursor pages ++ [cursor'].
Proof.
  induction 1 as [|w cursor pg x w1 pages w2 cursor2 Hcall Hmore Hlast Hrest IH]; simpl.
  - reflexivity.
  - rewrite Hlast. simpl. rewrite IH. reflexivity.
Qed.

(** The loop goes through the pages that announce more. *)
Lemma paginate_more (pages : list (ApiList A)) :
  forall (k : nat) (cursor : option string) (acc : Acc) (st : St (Ext W)) w' cursor',
    serves_more stripeClient request item_id (platform (world st)) cursor pages w' cursor' ->
    paginate stripeClient request item_id step (length pages + k) true cursor acc st
    = paginate stripeClient request item_id step k true cursor' (fold_left step (data <$> pages) acc)
           (advance st w' (issuedX ∘ request <$> cursors item_id cursor pages)).
Proof.
  induction pages as [|page pages IH]; intros k cursor acc st w' cursor' Hs.
  - inversion Hs; subst. cbn [length Nat.add cursors fmap list_fmap fold_left].
    rewrite advance_nil. reflexivity.
  - inversion Hs as [|w0 c0 pg x w1 pgs w2 c2 Hcall Hmore Hlast Hrest]; subst.
    cbn [length Nat.add paginate]. unfold bind at 1.
    rewrite (awaitX_resolved _ _ _ _ Hcall). rewrite Hmore, Hlast.
    rewrite (IH k (Some (item_id x)) (step acc (data page))
                (advance st w1 [issuedX (request cursor)]) w' cursor' Hrest).
    rewrite advance_advance. cbn [cursors fmap list_fmap fold_left]. rewrite Hlast.
    reflexivity.
Qed.

(** It returns on the page that announces no more, ... *)
Lemma paginate_last (k : nat) cursor acc (st : St (Ext W)) page w' :
  stripeClient _ (request cursor) (platform (world st)) = (Resolved page, w') ->
  has_more page = false ->
  paginate stripeClient request item_id step (S k) true cursor acc st
  = (Return (step acc (data page)), advance st w' [issuedX (request cursor)]).
Proof.
  intros Hcall Hmore. cbn [paginate]. unfold bind.
  rewrite (awaitX_resolved _ _ _ _ Hcall), Hmore. destruct k; reflexivity.
Qed.

(** ... throws what the platform rejects a page with, ... *)
Lemma paginate_rejected (k : nat) cursor acc (st : St (Ext W)) code msg w' :
  stripeClient _ (request cursor) (platform (world st)) = (Rejected code msg, w') ->
  paginate stripeClient request item_id step (S k) true cursor acc st
  = (Throw (StripeError code msg), advance st w' [issuedX (request cursor)]).
Proof.
  intros Hcall. cbn [paginate]. unfold bind.
  rewrite (awaitX_rejected _ _ _ _ _ Hcall). reflexivity.
Qed.

(** ... and stops on an empty page that announces more. *)
Lemma paginate_empty_more (k : nat) cursor acc (st : St (Ext W)) page w' :
  stripeClient _ (request cursor) (platform (world st)) = (Resolved page, w') ->
  has_more page = true ->
  data page = [] ->
  paginate stripeClient request item_id step (S k) true cursor acc st
  = (Throw (TypeError "Cannot read properties of undefined (reading 'id')"),
     advance st w' [issuedX (request cursor)]).
Proof.
  intros Hcall Hmore Hempty. cbn [paginate]. unfold bind.
  rewrite (awaitX_resolved _ _ _ _ Hcall), Hmore, Hempty. reflexivity.
Qed.

End PaginationFacts.

Lemma count_items {A : Type} (pages : list (list A)) (count : Z) :
  fold_left (fun count items => count + Z.of_nat (length items)) pages count
  = count + Z.of_nat (length (concat pages)).
Proof.
  revert count. induction pages as [|p pages IH]; intros count; simpl.
  - lia.
  - rewrite IH, length_app. lia.
Qed.

Lemma collect_items {A : Type} (pages : list (list A)) (all : list A) :
  fold_left (fun all items => all ++ items) pages all = all ++ concat pages.
Proof.
  revert all. induction pages as [|p pages IH]; intros all; simpl.
  - rewrite app_nil_r. reflexivity.
  - rewrite IH, app_assoc. reflexivity.
Qed.

Lemma count_recent (now_ms : Z) (all : list ListedCustomer.t) :
  length (List.filter (fun c => now_ms / 1000 - 30 * 24 * 3600 <=? ListedCustomer.created c) all)
  = length (filter (recent now_ms) all).
Proof.
  change (30 * 24 * 3600) with 2592000.
  induction all as [|c all IH]; [reflexivity|].
  cbn [List.filter]. rewrite filter_cons. unfold recent at 1.
  destruct (Z.leb_spec (now_ms / 1000 - 2592000) (ListedCustomer.created c));
    case_decide; try lia; simpl; rewrite IH; reflexivity.
Qed.

Section CollectionStatistics.

Context {W : Type}.
Variable stripeClient : StripeClientX W.

Lemma getActiveSubscribers_while_paginate (fuel : nat) :
  forall hasMore cursor count (st : St (Ext W)),
    getActiveSubscribers_while stripeClient fuel hasMore cursor count st
    = paginate stripeClient (subscriptions_list "active" 100) Subscription.id
               (fun count items => count + Z.of_nat (length items))
               fuel hasMore cursor count st.
Proof.
  induction fuel as [|fuel IH]; intros [|] cursor count st; try reflexivity.
  cbn [getActiveSubscribers_while paginate]. unfold bind.
  destruct (awaitX _ _ st) as [[page| |] st1]; try reflexivity.
  destruct (has_more page); [destruct (last (data page))|]; try apply IH. reflexivity.
Qed.

Lemma getCustomerStats_while_paginate (fuel : nat) :
  forall hasMore cursor all (st : St (Ext W)),
    getCustomerStats_while stripeClient fuel hasMore cursor all st
    = paginate stripeClient (customers_list 100) ListedCustomer.id
               (fun all items => all ++ items) fuel hasMore cursor all st.
Proof.
  induction fuel as [|fuel IH]; intros [|] cursor all st; try reflexivity.
  cbn [getCustomerStats_while paginate]. unfold bind.
  destruct (awaitX _ _ st) as [[page| |] st1]; try reflexivity.
  destruct (has_more page); [destruct (last (data page))|]; try apply IH. reflexivity.
Qed.

(** X1. When the platform serves the active subscriptions as a sequence of
    pages, [getActiveSubscribers] returns the number of subscriptions of all
    the pages, having asked once per page for 100 active subscriptions after
    the last one of the page before. *)
Theorem getActiveSubscribers_counts_all_pages
    (pages : list (ApiList Subscription.t)) (last_page : ApiList Subscription.t)
    (fuel : nat) (st : St (Ext W)) (w1 w2 : W) (cursor : option string) :
  serves_more stripeClient (subscriptions_list "active" 100) Subscription.id
              (platform (world st)) None pages w1 cursor ->
  stripeClient _ (subscriptions_list "active" 100 cursor) w1 = (Resolved last_page, w2) ->
  has_more last_page = false ->
  (length pages < fuel)%nat ->
  getActiveSubscribers stripeClient fuel st
  = (Return (Z.of_nat (length (concat (data <$> pages ++ [last_page])))),
     advance st w2
       (issuedX ∘ subscriptions_list "active" 100
          <$> cursors Subscription.id None (pages ++ [last_page]))).
Proof.
  intros Hs Hlast Hmore Hfuel. unfold getActiveSubscribers.
  rewrite getActiveSubscribers_while_paginate.
  replace fuel with (length pages + S (fuel - S (length pages)))%nat by lia.
  rewrite (paginate_more _ _ _ _ pages _ _ _ _ _ _ Hs).
  rewrite (paginate_last _ _ _ _ _ _ _ _ last_page w2); [|exact Hlast|exact Hmore].
  rewrite advance_advance, (cursors_snoc _ _ _ _ _ _ _ _ last_page Hs), fmap_app.
  rewrite !count_items, fmap_app, concat_app, length_app. cbn [fmap list_fmap concat].
  rewrite app_nil_r. f_equal. f_equal. lia.
Qed.

(** X2. When the platform serves the customers as a sequence of pages,
    [getCustomerStats] returns the number of customers of all the pages and,
    as new ones, the number of those created no more than 2 592 000 seconds
    before the current second, that bound included. *)
Theorem getCustomerStats_counts_all_pages
    (pages : list (ApiList ListedCustomer.t)) (last_page : ApiList ListedCustomer.t)
    (fuel : nat) (st : St (Ext W)) (w1 w2 : W) (cursor : option string) :
  serves_more stripeClient (customers_list 100) ListedCustomer.id
              (platform (world st)) None pages w1 cursor ->
  stripeClient _ (customers_list 100 cursor) w1 = (Resolved last_page, w2) ->
  has_more last_page = false ->
  (length pages < fuel)%nat ->
  let all := concat (data <$> pages ++ [last_page]) in
  fst (getCustomerStats stripeClient fuel st)
  = Return {| CustomerStats.total := Z.of_nat (length all);
              CustomerStats.new := Z.of_nat (length (filter (recent (now st)) all)) |}.
Proof.
  intros Hs Hlast Hmore Hfuel all. unfold getCustomerStats. unfold bind at 1.
  rewrite getCustomerStats_while_paginate.
  replace fuel with (length pages + S (fuel - S (length pages)))%nat by lia.
  rewrite (paginate_more _ _ _ _ pages _ _ _ _ _ _ Hs).
  rewrite (paginate_last _ _ _ _ _ _ _ _ last_page w2); [|exact Hlast|exact Hmore].
  unfold bind, Date_now, ret. cbn [fst advance now].
  rewrite collect_items. cbn [app].
  assert (Hall : concat (data <$> pages) ++ data last_page = all).
  { unfold all. rewrite fmap_app, concat_app. cbn. rewrite app_nil_r. reflexivity. }
  rewrite Hall, count_recent. reflexivity.
Qed.

(** X3. Whatever the platform answers, the statistics [getCustomerStats]
    returns never count more new customers than customers. *)
Theorem getCustomerStats_new_within_total
    (fuel : nat) (st st' : St (Ext W)) (stats : CustomerStats.t) :
  getCustomerStats stripeClient fuel st = (Return stats, st') ->
  0 <= CustomerStats.new stats <= CustomerStats.total stats.
Proof.
  unfold getCustomerStats, bind, Date_now, ret.
  destruct (getCustomerStats_while _ _ _ _ _ _) as [[all| |] st1]; try discriminate.
  intros [= <- _]. cbn [CustomerStats.new CustomerStats.total].
  split; [lia|]. apply inj_le. clear.
  induction all as [|c all IH]; simpl; [lia|].
  destruct (_ <=? _); simpl; lia.
Qed.

(** X4. [getCustomerStats] does not wrap the failures of the platform: when a
    page is rejected, after any number of pages served, the Stripe error
    itself is thrown, no [BadRequestException], and nothing is logged. *)
Theorem getCustomerStats_failure_propagates
    (pages : list (ApiList ListedCustomer.t)) (fuel : nat) (st : St (Ext W))
    (w1 w2 : W) (cursor : option string) (code : option string) (msg : string) :
  serves_more stripeClient (customers_list 100) ListedCustomer.id
              (platform (world st)) None pages w1 cursor ->
  stripeClient _ (customers_list 100 cursor) w1 = (Rejected code msg, w2) ->
  (length pages < fuel)%nat ->
  let run := getCustomerStats stripeClient fuel st in
  fst run = Throw (StripeError code msg)
  /\ (forall message, fst run <> Throw (BadRequestException message))
  /\ logs (snd run) = logs st.
Proof.
  intros Hs Hrej Hfuel. cbn zeta.
  assert (H : fst (getCustomerStats stripeClient fuel st) = Throw (StripeError code msg)
              /\ logs (snd (getCustomerStats stripeClient fuel st)) = logs st).
  { unfold getCustomerStats. unfold bind at 1 3.
    rewrite getCustomerStats_while_paginate.
    replace fuel with (length pages + S (fuel - S (length pages)))%nat by lia.
    rewrite (paginate_more _ _ _ _ pages _ _ _ _ _ _ Hs).
    rewrite (paginate_rejected _ _ _ _ _ _ _ _ code msg w2); [|exact Hrej].
    repeat split. }
  destruct H as [Hthrow Hlogs]. split; [exact Hthrow|]. split; [|exact Hlogs].
  intros message. rewrite Hthrow. discriminate.
Qed.

(** X5. An empty page that announces more leaves [getActiveSubscribers]
    without a cursor: the call throws a [TypeError] instead of a count, after
    any number of pages served. *)
Theorem getActiveSubscribers_empty_page_announcing_more
    (pages : list (ApiList Subscription.t)) (page : ApiList Subscription.t)
    (fuel : nat) (st : St (Ext W)) (w1 w2 : W) (cursor : option string) :
  serves_more stripeClient (subscriptions_list "active" 100) Subscription.id
              (platform (world st)) None pages w1 cursor ->
  stripeClient _ (subscriptions_list "active" 100 cursor) w1 = (Resolved page, w2) ->
  has_more page = true ->
  data page = [] ->
  (length pages < fuel)%nat ->
  fst (getActiveSubscribers stripeClient fuel st)
  = Throw (TypeError "Cannot read properties of undefined (reading 'id')").
Proof.
  intros Hs Hcall Hmore Hempty Hfuel. unfold getActiveSubscribers.
  rewrite getActiveSubscribers_while_paginate.
  replace fuel with (length pages + S (fuel - S (length pages)))%nat by lia.
  rewrite (paginate_more _ _ _ _ pages _ _ _ _ _ _ Hs).
  rewrite (paginate_empty_more _ _ _ _ _ _ _ _ page w2);
    [reflexivity | exact Hcall | exact Hmore | exact Hempty].
Qed.

End CollectionStatistics.

Lemma serves_first_subscriptions :
  serves_more FixtureX.listings (subscriptions_list "active" 100) Subscription.id
              tt None [FixtureX.subs1] tt (Some "sub_2").
Proof.
  eapply serves_more_cons; [reflexivity | reflexivity | reflexivity |].
  apply serves_more_nil.
Defined.

Lemma serves_first_customers (client : StripeClientX unit) :
  client _ (customers_list 100 None) tt = (Resolved FixtureX.cust1, tt) ->
  serves_more client (customers_list 100) ListedCustomer.id
              tt None [FixtureX.cust1] tt (Some "cus_2").
Proof.
  intros H. eapply serves_more_cons; [exact H | reflexivity | reflexivity |].
  apply serves_more_nil.
Defined.

Lemma getActiveSubscribers_counts_all_pages_witness :
  serves_more FixtureX.listings (subscriptions_list "active" 100) Subscription.id
              tt None [FixtureX.subs1] tt (Some "sub_2")
  /\ getActiveSubscribers FixtureX.listings 5 (FixtureX.start tt 0)
     = (Return 3,
        advance (FixtureX.start tt 0) tt
          [issuedX (subscriptions_list "active" 100 None);
           issuedX (subscriptions_list "active" 100 (Some "sub_2"))]).
Proof.
  split; [exact serves_first_subscriptions|].
  apply (getActiveSubscribers_counts_all_pages FixtureX.listings
           [FixtureX.subs1] FixtureX.subs2 5 (FixtureX.start tt 0) tt tt (Some "sub_2")
           serves_first_subscriptions eq_refl eq_refl).
  simpl. lia.
Defined.

Lemma getCustomerStats_counts_all_pages_witness :
  serves_more FixtureX.listings (customers_list 100) ListedCustomer.id
              tt None [FixtureX.cust1] tt (Some "cus_2")
  /\ fst (getCustomerStats FixtureX.listings 5 (FixtureX.start tt 1700000000000))
     = Return {| CustomerStats.total := 3; CustomerStats.new := 2 |}.
Proof.
  split; [exact (serves_first_customers FixtureX.listings eq_refl)|].
  apply (getCustomerStats_counts_all_pages FixtureX.listings
           [FixtureX.cust1] FixtureX.cust2 5 (FixtureX.start tt 1700000000000) tt tt
           (Some "cus_2") (serves_first_customers FixtureX.listings eq_refl) eq_refl eq_refl).
  simpl. lia.
Defined.

Lemma getCustomerStats_new_within_total_witness :
  getCustomerStats FixtureX.listings 5 (FixtureX.start tt 1700000000000)
  = (Return {| CustomerStats.total := 3; CustomerStats.new := 2 |},
     snd (getCustomerStats FixtureX.listings 5 (FixtureX.start tt 1700000000000)))
  /\ 0 <= 2 <= 3.
Proof.
  split; [reflexivity|].
  apply (getCustomerStats_new_within_total FixtureX.listings 5
           (FixtureX.start tt 1700000000000)
           (snd (getCustomerStats FixtureX.listings 5 (FixtureX.start tt 1700000000000)))
           {| CustomerStats.total := 3; CustomerStats.new := 2 |}).
  reflexivity.
Defined.

Lemma getCustomerStats_failure_propagates_witness :
  serves_more FixtureX.broken_listings (customers_list 100) ListedCustomer.id
              tt None [FixtureX.cust1] tt (Some "cus_2")
  /\ fst (getCustomerStats FixtureX.broken_listings 5 (FixtureX.start tt 0))
     = Throw (StripeError (Some "rate_limit") "Too many requests")
  /\ (forall message,
        fst (getCustomerStats FixtureX.broken_listings 5 (FixtureX.start tt 0))
        <> Throw (BadRequestException message))
  /\ logs (snd (getCustomerStats FixtureX.broken_listings 5 (FixtureX.start tt 0))) = [].
Proof.
  split; [exact (serves_first_customers FixtureX.broken_listings eq_refl)|].
  apply (getCustomerStats_failure_propagates FixtureX.broken_listings
           [FixtureX.cust1] 5 (FixtureX.start tt 0) tt tt (Some "cus_2")
           (Some "rate_limit") "Too many requests"
           (serves_first_customers FixtureX.broken_listings eq_refl) eq_refl).
  simpl. lia.
Defined.

Lemma getActiveSubscribers_empty_page_announcing_more_witness :
  serves_more FixtureX.broken_listings (subscriptions_list "active" 100) Subscription.id
              tt None [] tt None
  /\ fst (getActiveSubscribers FixtureX.broken_listings 5 (FixtureX.start tt 0))
     = Throw (TypeError "Cannot read properties of undefined (reading 'id')").
Proof.
  split; [apply serves_more_nil|].
  apply (getActiveSubscribers_empty_page_announcing_more FixtureX.broken_listings
           [] {| data := []; has_more := true |} 5 (FixtureX.start tt 0) tt tt None
           (serves_more_nil _ _ _ tt None) eq_refl eq_refl eq_refl).
  simpl. lia.
Defined.

(** ** The wrapped calls of the service *)

Lemma or_else_not_empty (a : option string) (b : string) : b <> "" -> or_else a b <> "".
Proof.
  intros Hb. unfold or_else. destruct a as [s|]; [|exact Hb].
  destruct (String.eqb_spec s ""); assumption.
Qed.

Section WrappedCalls.

Context {W : Type}.
Variable stripeClient : StripeClientX W.
Variable configService : string -> option string.

(** X6. [createAccountLink] builds both URLs of the onboarding link on one
    origin, never empty: the configured [FRONTEND_URL], or
    [http://localhost:3000] when it is not set or set to the empty string.
    It asks for one account link and returns its URL, or throws its own
    [BadRequestException] when the platform refuses. *)
Theorem createAccountLink_urls (stripeAccountId : string) (st : St (Ext W)) :
  exists origin : string,
    let request :=
      accountLinks_create
        {| al_account := stripeAccountId;
           al_refresh_url := origin +:+ "/reauth";
           al_return_url := origin +:+ "/office/billing-settings";
           al_type := "account_onboarding" |} in
    let run := createAccountLink stripeClient configService stripeAccountId st in
    origin <> ""
    /\ (forall s, configService "FRONTEND_URL" = Some s -> s <> "" -> origin = s)
    /\ (configService "FRONTEND_URL" = None \/ configService "FRONTEND_URL" = Some "" ->
        origin = "http://localhost:3000")
    /\ requests (world (snd run)) = requests (world st) ++ [issuedX request]
    /\ match fst (stripeClient _ request (platform (world st))) with
       | Resolved link => fst run = Return (AccountLink.url link)
       | Rejected _ _ =>
           fst run = Throw (BadRequestException "Erreur lors de la génération du lien Connect")
       end.
Proof.
  exists (or_else (configService "FRONTEND_URL") "http://localhost:3000"). cbn zeta.
  split; [apply or_else_not_empty; discriminate|].
  split; [|split].
  - intros s Hs Hne. rewrite Hs. unfold or_else.
    destruct (String.eqb_spec s ""); [contradiction | reflexivity].
  - intros [H|H]; rewrite H; reflexivity.
  - unfold createAccountLink, try_catch, bind, awaitX, ret, throw, logger.
    destruct (stripeClient _ _ _) as [[link|code msg] w'] eqn:Hc; cbn; split; reflexivity.
Qed.

(** X7. [createCustomer], [cancelSubscriptionAtPeriodEnd] and
    [createExpressAccount] hide the failures of the platform: whatever code
    and message it rejects the call of one of them with, that one logs an
    error and throws its own [BadRequestException] with a fixed message. *)
Theorem wrapped_failures_are_masked
    (email description subscriptionId : string) (st : St (Ext W)) :
  (forall code msg w',
      stripeClient _ (customers_create email description) (platform (world st))
      = (Rejected code msg, w') ->
      let run := createCustomer stripeClient email description st in
      fst run = Throw (BadRequestException "Impossible de créer le client Stripe")
      /\ logs (snd run)
         = logs st ++ [(ERROR, "Erreur lors de la création du client Stripe")])
  /\ (forall code msg w',
        stripeClient _ (subscriptions_update subscriptionId true) (platform (world st))
        = (Rejected code msg, w') ->
        let run := cancelSubscriptionAtPeriodEnd stripeClient subscriptionId st in
        fst run = Throw (BadRequestException "Impossible d’annuler l’abonnement Stripe")
        /\ logs (snd run)
           = logs st ++ [(ERROR, "Erreur lors de l'annulation de l'abonnement "
                                 +:+ subscriptionId)])
  /\ (forall code msg w',
        stripeClient _ (accounts_create {| ac_type := "express";
                                           ac_card_payments_requested := true;
                                           ac_transfers_requested := true;
                                           ac_country := "FR" |})
                     (platform (world st))
        = (Rejected code msg, w') ->
        let run := createExpressAccount stripeClient st in
        fst run = Throw (BadRequestException "Impossible de créer le compte Express Stripe")
        /\ logs (snd run)
           = logs st ++ [(ERROR, "Erreur lors de la création du compte Express")]).
Proof.
  unfold createCustomer, cancelSubscriptionAtPeriodEnd, createExpressAccount,
    try_catch, bind.
  split; [|split]; intros code msg w' Hc; cbn zeta;
    rewrite (awaitX_rejected _ _ _ _ _ _ Hc); split; reflexivity.
Qed.

End WrappedCalls.

Lemma wrapped_failures_are_masked_witness :
  (fst (createCustomer FixtureX.unavailable "a@example.org" "Client" (FixtureX.start tt 0))
   = Throw (BadRequestException "Impossible de créer le client Stripe")
   /\ logs (snd (createCustomer FixtureX.unavailable "a@example.org" "Client"
                   (FixtureX.start tt 0)))
      = [(ERROR, "Erreur lors de la création du client Stripe")])
  /\ (fst (cancelSubscriptionAtPeriodEnd FixtureX.unavailable "sub_1" (FixtureX.start tt 0))
      = Throw (BadRequestException "Impossible d’annuler l’abonnement Stripe")
      /\ logs (snd (cancelSubscriptionAtPeriodEnd FixtureX.unavailable "sub_1"
                      (FixtureX.start tt 0)))
         = [(ERROR, "Erreur lors de l'annulation de l'abonnement sub_1")])
  /\ (fst (createExpressAccount FixtureX.unavailable (FixtureX.start tt 0))
      = Throw (BadRequestException "Impossible de créer le compte Express Stripe")
      /\ logs (snd (createExpressAccount FixtureX.unavailable (FixtureX.start tt 0)))
         = [(ERROR, "Erreur lors de la création du compte Express")]).
Proof.
  destruct (wrapped_failures_are_masked FixtureX.unavailable
              "a@example.org" "Client" "sub_1" (FixtureX.start tt 0))
    as (Hcustomer & Hcancel & Hexpress).
  split; [|split].
  - exact (Hcustomer (Some "api_error") "platform unavailable" tt eq_refl).
  - exact (Hcancel (Some "api_error") "platform unavailable" tt eq_refl).
  - exact (Hexpress (Some "api_error") "platform unavailable" tt eq_refl).
Defined.

(** ** The payment pages *)

Ltac page_unfold :=
  unfold initiate_delivery_payment, initiate_service_payment, capture_delivery_payment,
    create_portal_session, create_checkout_session, create_subscription_session,
    method_not_allowed, reply, destructure, bind, try_catch, ret, throw, logger,
    res_status, res_json, res_setHeader, update_res, awaitX;
  cbn zeta.

Ltac page_cases stripe :=
  repeat (match goal with
          | |- context [match Next.body ?r with _ => _ end] =>
              let Hb := fresh "Hbody" in
              destruct (Next.body r) as [[| | | | |]|] eqn:Hb
          | |- context [if ?b then _ else _] =>
              let Hc := fresh "Hcond" in destruct b eqn:Hc
          | |- context [stripe ?R ?c ?w] =>
              let Hs := fresh "Hcall" in
              destruct (stripe R c w) as [[?|? ?] ?] eqn:Hs
          end; cbn).

Ltac one_answer :=
  do 2 eexists; split; [reflexivity|]; split; [reflexivity|];
  split; [apply (bool_decide_unpack _); vm_compute; exact I|];
  split; [rewrite ?length_app; simpl; lia|].


Lemma not_post_other_method (req : Next.ApiRequest) :
  Next.method req <> Some "POST" -> not_post req = true.
Proof.
  unfold not_post. destruct (Next.method req) as [m|]; [|reflexivity].
  intros H. destruct (String.eqb_spec m "POST") as [->|]; [contradiction | reflexivity].
Qed.

Section PagesFacts.

Context {W : Type}.
Variable stripe : StripeClientX W.

(** X8. Each of the six payment pages answers every request exactly once,
    with status 200, 400, 405 or 500, never throws, and asks the platform at
    most once; a POST whose body is undefined or null is answered with
    status 500, after a logged error and without any request to the
    platform. *)
Theorem pages_respond_once :
  responds_once (initiate_delivery_payment stripe)
  /\ responds_once (initiate_service_payment stripe)
  /\ responds_once (capture_delivery_payment stripe)
  /\ responds_once (create_portal_session stripe)
  /\ responds_once (create_checkout_session stripe)
  /\ responds_once (create_subscription_session stripe).
Proof.
  repeat split; intros req st; page_unfold; page_cases stripe; one_answer.
  all: intros Hpost Hnone.
  all: try match goal with
           | H : not_post _ = true |- _ =>
               unfold not_post in H; rewrite Hpost in H; discriminate H
           end.
  all: destruct Hnone as [Hnone|Hnone]; try congruence.
  all: split; [reflexivity|]; split; [reflexivity|]; eexists; reflexivity.
Qed.

(** X9. The six payment pages refuse every request that is not a POST with
    status 405 and the header [Allow: POST], without asking the platform
    anything. *)
Theorem pages_refuse_other_methods :
  refuses_other_methods (initiate_delivery_payment stripe)
  /\ refuses_other_methods (initiate_service_payment stripe)
  /\ refuses_other_methods (capture_delivery_payment stripe)
  /\ refuses_other_methods (create_portal_session stripe)
  /\ refuses_other_methods (create_checkout_session stripe)
  /\ refuses_other_methods (create_subscription_session stripe).
Proof.
  repeat apply conj; intros req st Hm; apply not_post_other_method in Hm;
    page_unfold; rewrite Hm; cbn; repeat split.
Qed.

End PagesFacts.

Lemma all_truthy_2 (a b : bool) : negb a || negb b = false -> a = true /\ b = true.
Proof. destruct a, b; simpl; intros H; try discriminate; split; reflexivity. Qed.

Ltac truthy_facts :=
  repeat match goal with
    | H : _ || _ = false |- _ => apply orb_false_iff in H; destruct H
    | H : negb _ = false |- _ => apply negb_false_iff in H
    end.

Ltac error_answer :=
  right; split; [reflexivity|]; do 2 eexists; split; [reflexivity|];
  apply (bool_decide_unpack _); vm_compute; exact I.

Section PagesRequests.

Context {W : Type}.
Variable stripe : StripeClientX W.

(** X10. The delivery page creates an intent only from a body whose
    [customerId], [amount], [currency] and [delivererAccountId] are all
    truthy (an amount of 0 counts as missing): the intent carries these four
    values, manual capture, the card method and the metadata type
    [delivery_payment]; the page then answers 200 with the client secret, or
    500 with a fixed error when the platform refuses.  In every other case
    nothing is asked of the platform and the answer is an error. *)
Theorem initiate_delivery_payment_intents (req : Next.ApiRequest) (st : St (Ext W)) :
  let run := initiate_delivery_payment stripe req st in
  (exists b,
      let p := {| mi_amount := property b "amount";
                  mi_currency := property b "currency";
                  mi_customer := property b "customerId";
                  mi_capture_method := "manual";
                  mi_payment_method_types := ["card"];
                  mi_transfer_destination := property b "delivererAccountId";
                  mi_metadata := [("type", Some (JStr "delivery_payment"))] |} in
      Next.body req = Some b
      /\ truthy (mi_customer p) = true /\ truthy (mi_amount p) = true
      /\ truthy (mi_currency p) = true /\ truthy (mi_transfer_destination p) = true
      /\ requests (world (snd run))
         = requests (world st) ++ [issuedX (paymentIntents_create_manual p)]
      /\ sent (res (world (snd run)))
         = sent (res (world st))
           ++ [match fst (stripe _ (paymentIntents_create_manual p) (platform (world st))) with
               | Resolved pi =>
                   (200, JObj [("clientSecret", json_of_string (ManualIntent.client_secret pi))])
               | Rejected _ _ =>
                   (500, JObj [("error", JStr "Impossible de créer le PaymentIntent")])
               end])
  \/ (requests (world (snd run)) = requests (world st)
      /\ exists status body,
          sent (res (world (snd run))) = sent (res (world st)) ++ [(status, body)]
          /\ status ∈ [400; 405; 500]).
Proof.
  cbn zeta. page_unfold. page_cases stripe; try error_answer.
  all: left; eexists; split; [reflexivity|]; cbn; truthy_facts;
    repeat (split; [assumption|]); split; [reflexivity|];
    match goal with H : stripe _ _ _ = _ |- _ => rewrite H end; reflexivity.
Qed.

(** X11. The service page creates an intent only from a body whose
    [customerId], [amount], [currency], [providerAccountId] and [serviceId]
    are all truthy; the intent carries them, the service id in its metadata
    beside the type [service_booking], with manual capture.  In every other
    case nothing is asked of the platform and the answer is an error. *)
Theorem initiate_service_payment_intents (req : Next.ApiRequest) (st : St (Ext W)) :
  let run := initiate_service_payment stripe req st in
  (exists b,
      let p := {| mi_amount := property b "amount";
                  mi_currency := property b "currency";
                  mi_customer := property b "customerId";
                  mi_capture_method := "manual";
                  mi_payment_method_types := ["card"];
                  mi_transfer_destination := property b "providerAccountId";
                  mi_metadata := [("type", Some (JStr "service_booking"));
                                  ("serviceId", property b "serviceId")] |} in
      Next.body req = Some b
      /\ truthy (mi_customer p) = true /\ truthy (mi_amount p) = true
      /\ truthy (mi_currency p) = true /\ truthy (mi_transfer_destination p) = true
      /\ truthy (property b "serviceId") = true
      /\ requests (world (snd run))
         = requests (world st) ++ [issuedX (paymentIntents_create_manual p)]
      /\ sent (res (world (snd run)))
         = sent (res (world st))
           ++ [match fst (stripe _ (paymentIntents_create_manual p) (platform (world st))) with
               | Resolved pi =>
                   (200, JObj [("clientSecret", json_of_string (ManualIntent.client_secret pi))])
               | Rejected _ _ =>
                   (500, JObj [("error",
                                JStr "Impossible de créer le PaymentIntent pour la réservation")])
               end])
  \/ (requests (world (snd run)) = requests (world st)
      /\ exists status body,
          sent (res (world (snd run))) = sent (res (world st)) ++ [(status, body)]
          /\ status ∈ [400; 405; 500]).
Proof.
  cbn zeta. page_unfold. page_cases stripe; try error_answer.
  all: left; eexists; split; [reflexivity|]; cbn; truthy_facts;
    repeat (split; [assumption|]); split; [reflexivity|];
    match goal with H : stripe _ _ _ = _ |- _ => rewrite H end; reflexivity.
Qed.

(** X12. The Checkout page never asks for a line item without a quantity:
    the quantity sent is the body's when that is truthy and 1 otherwise (a
    quantity of 0 becomes 1), for the body's truthy price, in payment mode
    and without customer. *)
Theorem create_checkout_session_quantity (req : Next.ApiRequest) (st : St (Ext W)) :
  let run := create_checkout_session stripe req st in
  (exists b p,
      Next.body req = Some b
      /\ requests (world (snd run))
         = requests (world st) ++ [issuedX (checkout_sessions_create p)]
      /\ cs_mode p = "payment"
      /\ cs_price p = property b "priceId" /\ truthy (cs_price p) = true
      /\ truthy (Some (cs_quantity p)) = true
      /\ (truthy (property b "quantity") = true ->
          Some (cs_quantity p) = property b "quantity")
      /\ (truthy (property b "quantity") = false -> cs_quantity p = JNum 1)
      /\ cs_customer p = None)
  \/ (requests (world (snd run)) = requests (world st)
      /\ exists status body,
          sent (res (world (snd run))) = sent (res (world st)) ++ [(status, body)]
          /\ status ∈ [400; 405; 500]).
Proof.
  cbn zeta. page_unfold. page_cases stripe; try error_answer.
  all: left; do 2 eexists; split; [reflexivity|]; split; [reflexivity|]; cbn;
    truthy_facts; split; [reflexivity|]; split; [reflexivity|]; split; [assumption|].
  all: unfold quantity_or_one;
    destruct (own_property "quantity" _) as [q|] eqn:Hq;
    [destruct (truthy (Some q)) eqn:Ht|];
    repeat split; try reflexivity; try assumption; try congruence; try discriminate.
Qed.

(** X13. The subscription page asks for one unit of the body's truthy price
    in subscription mode, and attaches a customer exactly when the body's
    [customerId] is truthy: that customer. *)
Theorem create_subscription_session_customer (req : Next.ApiRequest) (st : St (Ext W)) :
  let run := create_subscription_session stripe req st in
  (exists b p,
      Next.body req = Some b
      /\ requests (world (snd run))
         = requests (world st) ++ [issuedX (checkout_sessions_create p)]
      /\ cs_mode p = "subscription"
      /\ cs_price p = property b "priceId" /\ truthy (cs_price p) = true
      /\ cs_quantity p = JNum 1
      /\ (truthy (property b "customerId") = true ->
          cs_customer p = property b "customerId")
      /\ (truthy (property b "customerId") = false -> cs_customer p = None))
  \/ (requests (world (snd run)) = requests (world st)
      /\ exists status body,
          sent (res (world (snd run))) = sent (res (world st)) ++ [(status, body)]
          /\ status ∈ [400; 405; 500]).
Proof.
  cbn zeta. page_unfold. page_cases stripe; try error_answer.
  all: left; do 2 eexists; split; [reflexivity|]; split; [reflexivity|]; cbn;
    truthy_facts; repeat split; try reflexivity; try assumption; try congruence.
Qed.

(** X14. The portal page asks for a session exactly when the request is a
    POST whose body has a truthy [customerId].  It then sends the customer
    back to the request's origin followed by [/account]; without an [origin]
    header the return URL is the text [undefined/account], and the session
    is asked for all the same.  The page answers 200 with the URL of the
    session, or 500 when the platform refuses. *)
Theorem create_portal_session_return_url (req : Next.ApiRequest) (st : St (Ext W)) :
  let run := create_portal_session stripe req st in
  (forall b,
      Next.method req = Some "POST" ->
      Next.body req = Some b ->
      truthy (property b "customerId") = true ->
      let return_url :=
        match Next.origin req with
        | Some o => o +:+ "/account"
        | None => "undefined/account"
        end in
      let request := billingPortal_sessions_create (property b "customerId") return_url in
      requests (world (snd run)) = requests (world st) ++ [issuedX request]
      /\ match fst (stripe _ request (platform (world st))) with
         | Resolved session =>
             sent (res (world (snd run)))
             = sent (res (world st))
               ++ [(200, JObj [("url", JStr (PortalSession.url session))])]
         | Rejected _ _ =>
             sent (res (world (snd run)))
             = sent (res (world st))
               ++ [(500, JObj [("error",
                                JStr "Impossible de créer la session du Customer Portal")])]
         end)
  /\ (Next.method req <> Some "POST"
      \/ Next.body req = None
      \/ (exists b, Next.body req = Some b /\ truthy (property b "customerId") = false) ->
      requests (world (snd run)) = requests (world st)).
Proof.
  cbn zeta. split.
  - intros b Hpost Hbody Htruthy. page_unfold. unfold not_post.
    rewrite Hpost, Hbody. cbn [String.eqb Ascii.eqb Bool.eqb negb].
    destruct b as [| | | | |fields]; cbn in Htruthy; try discriminate.
    cbn [property]. rewrite Htruthy. cbn [negb].
    destruct (Next.origin req) as [o|]; cbn [interpolate default];
      destruct (stripe _ _ _) as [[session|code msg] w'] eqn:Hc; cbn; rewrite ?Hc;
      split; reflexivity.
  - intros Hno. page_unfold. destruct (not_post req) eqn:Hm; [reflexivity|].
    destruct Hno as [Hno | [Hno | (b & Hbody & Hfalse)]].
    + exfalso. unfold not_post in Hm. destruct (Next.method req) as [m|]; [|discriminate].
      apply negb_false_iff, String.eqb_eq in Hm. subst m. contradiction.
    + rewrite Hno. reflexivity.
    + rewrite Hbody. destruct b as [| | | | |fields]; cbn in Hfalse |- *;
        rewrite ?Hfalse; reflexivity.
Qed.

(** X15. The capture page answers 200 with [{success: true}] exactly when the
    request is a POST whose body has a truthy [paymentIntentId] and the
    platform captures that intent. *)
Theorem capture_delivery_payment_success (req : Next.ApiRequest) (st : St (Ext W)) :
  sent (res (world (snd (capture_delivery_payment stripe req st))))
  = sent (res (world st)) ++ [(200, JObj [("success", JBool true)])]
  <-> (Next.method req = Some "POST"
       /\ exists b pi w',
           Next.body req = Some b
           /\ truthy (property b "paymentIntentId") = true
           /\ stripe _ (paymentIntents_capture (property b "paymentIntentId"))
                     (platform (world st))
              = (Resolved pi, w')).
Proof.
  assert (Hpost : not_post req = false <-> Next.method req = Some "POST").
  { unfold not_post. destruct (Next.method req) as [m|]; [|split; discriminate].
    destruct (String.eqb_spec m "POST") as [->|Hne]; simpl; split; try reflexivity;
      try discriminate. intros [= ->]. contradiction. }
  page_unfold. destruct (not_post req) eqn:Hm.
  - cbn. split.
    + intros H. apply app_inv_head in H. discriminate.
    + intros [Hp _]. apply Hpost in Hp. discriminate.
  - assert (Hp : Next.method req = Some "POST") by (apply Hpost; reflexivity).
    clear Hpost Hm.
    page_cases stripe;
      (split; [intros H | intros (_ & body' & pi' & w'' & Hb & Ht & Hc)]).
    all: try (apply app_inv_head in H; discriminate).
    all: try discriminate.
    all: try (injection Hb as <-; cbn in Ht; discriminate).
    all: try (injection Hb as <-; cbn in Ht, Hc; truthy_facts;
              repeat match goal with
                     | H : negb _ = true |- _ => apply negb_true_iff in H
                     end; congruence).
    all: try reflexivity.
    all: split; [assumption|]; do 3 eexists; split; [reflexivity|]; cbn; truthy_facts;
      split; eassumption.
Qed.

End PagesRequests.

Lemma pages_refuse_other_methods_witness :
  Next.method {| Next.method := Some "GET"; Next.body := None; Next.origin := None |}
  <> Some "POST"
  /\ requests (world (snd (initiate_delivery_payment FixtureX.checkout
                             {| Next.method := Some "GET"; Next.body := None;
                                Next.origin := None |}
                             (FixtureX.start tt 0))))
     = []
  /\ sent (res (world (snd (capture_delivery_payment FixtureX.checkout
                              {| Next.method := Some "GET"; Next.body := None;
                                 Next.origin := None |}
                              (FixtureX.start tt 0)))))
     = [(405, JObj [("error", JStr "Méthode non autorisée")])].
Proof.
  assert (Hget : Next.method {| Next.method := Some "GET"; Next.body := None;
                                Next.origin := None |} <> Some "POST") by discriminate.
  destruct (pages_refuse_other_methods FixtureX.checkout)
    as (Hdelivery & _ & Hcapture & _).
  split; [exact Hget|]. split.
  - exact (proj1 (proj2 (Hdelivery _ (FixtureX.start tt 0) Hget))).
  - exact (proj1 (proj2 (proj2 (Hcapture _ (FixtureX.start tt 0) Hget)))).
Defined.

Lemma pages_respond_once_witness :
  let req := {| Next.method := Some "POST"; Next.body := Some JNull;
                Next.origin := None |} in
  let run := create_portal_session FixtureX.checkout req (FixtureX.start tt 0) in
  exists (status : Z) (body : Json),
    fst run = Return tt
    /\ sent (res (world (snd run))) = [(status, body)]
    /\ status = 500
    /\ requests (world (snd run)) = [].
Proof.
  cbn zeta.
  destruct (pages_respond_once FixtureX.checkout) as (_ & _ & _ & Hportal & _).
  destruct (Hportal {| Next.method := Some "POST"; Next.body := Some JNull;
                       Next.origin := None |} (FixtureX.start tt 0))
    as (status & body & Hrun & Hsent & _ & _ & Hnone).
  exists status, body. split; [exact Hrun|]. split; [exact Hsent|].
  destruct (Hnone eq_refl (or_intror eq_refl)) as (Hstatus & Hrequests & _).
  split; [exact Hstatus | exact Hrequests].
Defined.

Lemma create_portal_session_return_url_witness :
  let body := JObj [("customerId", JStr "cus_1")] in
  let req := {| Next.method := Some "POST"; Next.body := Some body;
                Next.origin := None |} in
  let run := create_portal_session FixtureX.checkout req (FixtureX.start tt 0) in
  let get := {| Next.method := Some "GET"; Next.body := Some body;
                Next.origin := None |} in
  (requests (world (snd run))
   = [issuedX (billingPortal_sessions_create (Some (JStr "cus_1")) "undefined/account")]
   /\ sent (res (world (snd run)))
      = [(200, JObj [("url", JStr "https://billing.example/session")])])
  /\ requests (world (snd (create_portal_session FixtureX.checkout get
                             (FixtureX.start tt 0))))
     = [].
Proof.
  cbn zeta. split.
  - exact (proj1 (create_portal_session_return_url FixtureX.checkout
                    {| Next.method := Some "POST";
                       Next.body := Some (JObj [("customerId", JStr "cus_1")]);
                       Next.origin := None |} (FixtureX.start tt 0))
                 (JObj [("customerId", JStr "cus_1")]) eq_refl eq_refl eq_refl).
  - apply (proj2 (create_portal_session_return_url FixtureX.checkout
                    {| Next.method := Some "GET";
                       Next.body := Some (JObj [("customerId", JStr "cus_1")]);
                       Next.origin := None |} (FixtureX.start tt 0))).
    left. discriminate.
Defined.
